(** * Exchange-rate cache and conversion

    A shallow embedding of [server_python/services/currency_service.py]
    (with the [exchange_rates] table of [server_python/database/db.py]) and
    the properties of its read path, its BNR client and its converter.

    Conventions of the embedding:
    - a Python [float] is an IEEE-754 binary64 value, Rocq's primitive
      [float]; [round(x, 2)], [float / int], truthiness and the raising
      division are written out in [Module Py];
    - a Python [dict] keyed by strings is a [gmap string _];
    - the [exchange_rates] table, whose rows are identified by
      [UNIQUE(currency_code, date)] and written with [INSERT OR REPLACE],
      is a [gmap] keyed by the pair (currency_code, date), the date as the
      column [date DATE] stores it: SQLite reads a bound text that is a
      numeric literal as a number; a rate is kept as the column
      [rate REAL NOT NULL] keeps it, and a nan, which sqlite3 binds as
      NULL, is refused with [IntegrityError]; the failures of the database
      itself (a missing file or table, a lock) are not modelled;
    - an exception is a value of [exn]; a function that may raise returns a
      [result]; functions that touch the table or call the BNR client run
      in the state monad [M] over a [World];
    - the [logfire] spans and log lines have no effect on results and are
      left out, as is [async]/[await] (each call runs to completion).

    Names of the design document and of the code: getLatestRates is
    [get_latest_rates], fetchRates is [fetch_bnr_rates], convert is
    [convert_currency]; the provenance tags live, cache and stale-cache are
    the [source] strings "bnr", "cache" and "cache-fallback"; FetchError is
    [FETCH_FAILED], NoRatesAvailable is [NO_RATES], RateNotFound is the
    [ValueError] of [convert_currency]. *)

From Stdlib Require Import ZArith QArith Qcanon Qabs Lqa Lia Ascii String.
From Stdlib Require Import Floats.PrimFloat Floats.SpecFloat Floats.FloatOps.
From stdpp Require Import gmap strings list fin_maps.

Set Warnings "-inexact-float,-register-all".
Local Open Scope Z_scope.

(** ** Exceptions and results *)

Inductive exn : Type :=
| HTTPError                 (* httpx: transport failure, timeout, raise_for_status *)
| ParseError                (* xml.etree.ElementTree.ParseError *)
| ValueError (msg : string)
| TypeError
| ZeroDivisionError
| OverflowError
| IntegrityError            (* sqlite3: NOT NULL constraint failed *)
| Exception (msg : string).

Inductive result (A : Type) : Type :=
| Ok (a : A)
| Raise (e : exn).
Arguments Ok {A} a.
Arguments Raise {A} e.

Definition rbind {A B} (r : result A) (k : A → result B) : result B :=
  match r with
  | Ok a => k a
  | Raise e => Raise e
  end.

Notation "x <-? r ; k" := (rbind r (λ x, k))
  (at level 20, r at level 100, k at level 200, right associativity,
   format "x  <-?  r ;  '/' k").

Definition is_raise {A} (r : result A) : bool :=
  match r with Ok _ => false | Raise _ => true end.

(** ** Python's numbers *)

Module Py.

(** The nearest binary64 value of [(-1)^s * n / d], ties to even: what
    CPython's [strtod] and [float(int)] compute. [SFdiv] rounds the exact
    quotient of the two mantissas once. *)
Definition float_of_ratio (s : bool) (n d : positive) : float :=
  SF2Prim (SFdiv prec emax (S754_finite s n 0) (S754_finite false d 0)).

Definition signed_zero (s : bool) : float :=
  if s then neg_zero else zero.

(** [bool(x)] for a float: [x != 0.0] (both zeros are falsy, nan is truthy). *)
Definition bool_float (x : float) : bool := negb (PrimFloat.eqb x 0).

(** [bool(s)] for an optional string ([None] and [""] are falsy). *)
Definition bool_str (s : option string) : bool :=
  match s with
  | Some (String _ _) => true
  | _ => false
  end.

(** [float(n)] for a Python [int]: the nearest binary64 value,
    [OverflowError] when it does not fit. *)
Definition float_of_int (n : Z) : result float :=
  match n with
  | Z0 => Ok zero
  | Zpos p =>
      let f := float_of_ratio false p 1 in
      if is_infinity f then Raise OverflowError else Ok f
  | Zneg p =>
      let f := float_of_ratio true p 1 in
      if is_infinity f then Raise OverflowError else Ok f
  end.

(** [x / y] on floats raises on a zero divisor instead of returning an
    infinity or a nan. *)
Definition truediv (x y : float) : result float :=
  if PrimFloat.eqb y 0 then Raise ZeroDivisionError else Ok (x / y)%float.

(** [x / n] with [n] an [int]: the [int] is converted first. *)
Definition truediv_int (x : float) (n : Z) : result float :=
  y <-? float_of_int n; truediv x y.

(** The integer nearest to [n / d] ([d > 0]), ties to even. *)
Definition round_half_even (n d : Z) : Z :=
  let q := n / d in
  match 2 * (n mod d) ?= d with
  | Lt => q
  | Gt => q + 1
  | Eq => if Z.even q then q else q + 1
  end.

(** [round(x, 2)] on a float: CPython prints the exact binary value of [x]
    with two correctly rounded decimals (ties to even) and reads the
    decimal back; nans, infinities and zeros round to themselves. *)
Definition round2 (x : float) : float :=
  match Prim2SF x with
  | S754_finite s m e =>
      let hundredths :=
        if 0 <=? e then Z.pos m * 2 ^ e * 100
        else round_half_even (Z.pos m * 100) (2 ^ (- e)) in
      match hundredths with
      | Z.pos p => float_of_ratio s p 100
      | _ => signed_zero s
      end
  | _ => x
  end.

(** [round(q, 2)] on a [fractions.Fraction]: the same decimal rounding,
    with nothing read back. *)
Definition round2_exact (q : Q) : Q :=
  round_half_even (Qnum q * 100) (Z.pos (Qden q)) # 100.

Definition truediv_exact (x y : Q) : result Q :=
  if Qeq_bool y 0 then Raise ZeroDivisionError else Ok (x / y)%Q.

End Py.

(** The three operations [convert_currency] applies to its numbers. The
    code is untyped: it runs on floats (what the service stores and
    receives) and as well on exact fractions. *)
Class PyNumber (R : Type) : Type := {
  num_mul : R → R → R;
  num_truediv : R → R → result R;
  num_round2 : R → R
}.

#[export] Instance float_number : PyNumber float :=
  {| num_mul := PrimFloat.mul; num_truediv := Py.truediv; num_round2 := Py.round2 |}.

#[export] Instance fraction_number : PyNumber Q :=
  {| num_mul := Qmult; num_truediv := Py.truediv_exact; num_round2 := Py.round2_exact |}.

(** ** The builtins [int] and [float] on strings

    The service is embedded over any pair of readers: [None] stands for
    the [ValueError] the builtin raises. [int("1")] is the one value the
    service relies on (the default multiplier). *)
Class PyBuiltins : Type := {
  py_int : string → option Z;
  py_float : string → option float;
  py_int_1 : py_int "1" = Some 1
}.

(** [dec_int] and [dec_float] are the readers used to run the service on
    concrete documents. They accept plain ASCII decimal literals, the form
    BNR publishes, and [dec_float] also the spellings of nan and of the
    infinities; they give the value the builtins give on them. Python
    accepts more (surrounding blanks, underscores), which these readers
    refuse. *)
Definition digit_of (c : ascii) : option Z :=
  let n := Z.of_N (N_of_ascii c) in
  if (48 <=? n) && (n <=? 57) then Some (n - 48) else None.

Fixpoint span_digits (s : string) : list Z * string :=
  match s with
  | String c r =>
      match digit_of c with
      | Some d => let '(ds, rest) := span_digits r in (d :: ds, rest)
      | None => ([], s)
      end
  | EmptyString => ([], s)
  end.

Definition Z_of_digits (ds : list Z) : Z :=
  foldl (λ acc d, 10 * acc + d) 0 ds.

Definition read_sign (s : string) : bool * string :=
  match s with
  | String "-" r => (true, r)
  | String "+" r => (false, r)
  | _ => (false, s)
  end.

Definition dec_int (s : string) : option Z :=
  let '(neg, r) := read_sign s in
  match span_digits r with
  | ((_ :: _) as ds, EmptyString) =>
      Some (if neg : bool then - Z_of_digits ds else Z_of_digits ds)
  | _ => None
  end.

(** The binary64 value nearest to [(-1)^neg * n * 10^k]. *)
Definition float_of_decimal (neg : bool) (n k : Z) : float :=
  match n with
  | Z.pos p =>
      if 0 <=? k then Py.float_of_ratio neg (p * Z.to_pos (10 ^ k)) 1
      else Py.float_of_ratio neg p (Z.to_pos (10 ^ (- k)))
  | _ => Py.signed_zero neg
  end.

Definition lower (c : ascii) : ascii :=
  let n := N_of_ascii c in
  if ((65 <=? n) && (n <=? 90))%N then ascii_of_N (n + 32) else c.

Fixpoint lowercase (s : string) : string :=
  match s with
  | String c r => String (lower c) (lowercase r)
  | EmptyString => EmptyString
  end.

(** [float("nan")], [float("inf")], [float("-Infinity")], in any case. *)
Definition special_float (s : string) : option float :=
  let '(neg, r) := read_sign s in
  let r := lowercase r in
  if decide (r = "nan") then Some nan
  else if decide (r = "inf" ∨ r = "infinity") then
    Some (if neg : bool then neg_infinity else infinity)
  else None.

Definition dec_float (s : string) : option float :=
  if special_float s is Some x then Some x else
  let '(neg, r) := read_sign s in
  let '(ip, r1) := span_digits r in
  let '(fp, r2) :=
    match r1 with
    | String "." t => span_digits t
    | _ => ([], r1)
    end in
  match ip ++ fp with
  | [] => None
  | ds =>
      let exponent :=
        match r2 with
        | EmptyString => Some 0
        | String "e" t | String "E" t => dec_int t
        | _ => None
        end in
      match exponent with
      | Some e => Some (float_of_decimal neg (Z_of_digits ds) (e - Z.of_nat (length fp)))
      | None => None
      end
  end.

Definition decimal_builtins : PyBuiltins :=
  {| py_int := dec_int; py_float := dec_float; py_int_1 := eq_refl |}.

(** ** ElementTree documents *)

Inductive Element : Type :=
  mkElement {
    tag : string;
    attrib : gmap string string;
    text : option string;
    children : list Element
  }.

(** [e.iter()]: [e] and its descendants in document order. *)
Fixpoint iter (e : Element) : list Element :=
  match e with
  | mkElement _ _ _ cs =>
      e :: (fix iter_all (l : list Element) : list Element :=
              match l with
              | [] => []
              | c :: l' => iter c ++ iter_all l'
              end) cs
  end.

(** [e.findall(".//t")]: the descendants of [e] (not [e] itself) tagged
    [t], in document order; [e.find(".//t")] is the first of them. *)
Definition findall (t : string) (e : Element) : list Element :=
  filter (λ x, tag x = t) (tail (iter e)).

Definition find (t : string) (e : Element) : option Element :=
  head (findall t e).

Definition CUBE : string := "{http://www.bnr.ro/xsd}Cube".
Definition RATE : string := "{http://www.bnr.ro/xsd}Rate".

(** What the GET on [BNR_API_URL] yields: httpx raises (connection
    failure, the 10 s timeout), or a response arrives with its status code
    and its body, given as ElementTree reads it ([None]: the body is not
    well-formed XML and [ET.fromstring] raises). *)
Inductive http_outcome : Type :=
| TransportError
| Response (status_code : Z) (document : option Element).

(** ** The exchange_rates table

    [[
    CREATE TABLE IF NOT EXISTS exchange_rates (
        id INTEGER PRIMARY KEY AUTOINCREMENT,
        currency_code TEXT NOT NULL,
        rate REAL NOT NULL,
        date DATE NOT NULL,
        created_at DATETIME DEFAULT CURRENT_TIMESTAMP,
        UNIQUE(currency_code, date)
    )
    ]]

    The service binds a [str] to [currency_code], a [float] to [rate] and
    a [str] to [date]. The column [date] has the declared type DATE, hence
    NUMERIC affinity: a text that is a well-formed integer or real literal
    is stored as that number, any other text as it is; the same conversion
    is applied to a text that is compared with the column. *)

(** A number held by SQLite, by its exact value: an INTEGER, a finite REAL
    or an infinite REAL. In a column of NUMERIC affinity a REAL without a
    fraction that fits 64 bits is kept as an INTEGER, so two numbers of the
    column are the same exactly when their values are equal. sqlite3 hands
    an INTEGER to Python as an [int] and a REAL as a [float]. *)
Inductive numeric : Type :=
| NegInfinity
| Finite (q : Qc)
| PosInfinity.

(** A value of the column [date]: a number, or a text, a Python [str]. *)
Inductive value : Type :=
| NUMBER (n : numeric)
| TEXT (s : string).

#[export] Instance numeric_eq_dec : EqDecision numeric.
Proof. solve_decision. Defined.

#[export] Instance numeric_countable : Countable numeric :=
  inj_countable'
    (λ n, match n with
          | NegInfinity => inl false
          | PosInfinity => inl true
          | Finite q => inr q
          end)
    (λ s, match s with
          | inl false => NegInfinity
          | inl true => PosInfinity
          | inr q => Finite q
          end)
    (λ n, match n with NegInfinity | PosInfinity | Finite _ => eq_refl end).

#[export] Instance value_eq_dec : EqDecision value.
Proof. solve_decision. Defined.

#[export] Instance value_countable : Countable value :=
  inj_countable'
    (λ v, match v with NUMBER n => inl n | TEXT s => inr s end)
    (λ s, match s with inl n => NUMBER n | inr s => TEXT s end)
    (λ v, match v with NUMBER _ | TEXT _ => eq_refl end).

(** The order of [MAX] and [ORDER BY]: numbers by their value, every number
    before every text, texts bytewise (the collation BINARY). *)
Definition numeric_leb (m n : numeric) : bool :=
  match m, n with
  | NegInfinity, _ => true
  | _, PosInfinity => true
  | Finite p, Finite q => Qle_bool p q
  | _, _ => false
  end.

Definition value_leb (a b : value) : bool :=
  match a, b with
  | NUMBER m, NUMBER n => numeric_leb m n
  | NUMBER _, TEXT _ => true
  | TEXT _, NUMBER _ => false
  | TEXT s, TEXT t => String.leb s t
  end.

(** Which texts SQLite reads as a number, and as which: the conversion of
    a well-formed literal to an INTEGER or, rounded, to a REAL. The service
    is embedded over any such reading ([None]: the text is no numeric
    literal). *)
Class Sqlite : Type := {
  numeric_literal : string → option numeric
}.

(** NUMERIC affinity applied to a bound text. *)
Definition numeric_affinity `{Sqlite} (s : string) : value :=
  match numeric_literal s with
  | Some n => NUMBER n
  | None => TEXT s
  end.

(** The float read back from the column [rate REAL NOT NULL] after [x],
    not a nan, was stored: a REAL without a fraction is kept as an integer
    and converted back on reading, which turns -0.0 into 0.0 and leaves
    every other float as it is. *)
Definition read_back (x : float) : float :=
  if PrimFloat.eqb x 0 then 0%float else x.

(** A Python float bound to the column [rate]: sqlite3 binds a nan as
    NULL, which NOT NULL refuses ([None]). *)
Definition stored_rate (x : float) : option float :=
  if PrimFloat.is_nan x then None else Some (read_back x).

Module Row.
Record t : Type := mk { currency_code : string; rate : float; date : value }.
End Row.

(** Keyed by (currency_code, date); the columns [id] and [created_at] are
    never read by the service. *)
Abbreviation Table := (gmap (string * value) float).

Definition rows (tbl : Table) : list Row.t :=
  (λ kv, Row.mk kv.1.1 kv.2 kv.1.2) <$> map_to_list tbl.

(** [... WHERE date = v] for a value [v] of the column. *)
Definition rows_dated (v : value) (tbl : Table) : list Row.t :=
  filter (λ r, Row.date r = v) (rows tbl).

(** [SELECT currency_code, rate FROM exchange_rates WHERE date = ?] with a
    [str] bound to the parameter. *)
Definition select_by_date `{Sqlite} (rate_date : string) (tbl : Table) : list Row.t :=
  rows_dated (numeric_affinity rate_date) tbl.

Definition later_date (a b : value) : value :=
  if value_leb a b then b else a.

(** [SELECT MAX(date) FROM exchange_rates] ([None]: NULL, on an empty table). *)
Definition max_date (tbl : Table) : option value :=
  foldr (λ r acc, Some (match acc with
                        | None => Row.date r
                        | Some m => later_date m (Row.date r)
                        end)) None (rows tbl).

(** [SELECT currency_code, rate, date FROM exchange_rates
     WHERE date = (SELECT MAX(date) FROM exchange_rates)] *)
Definition select_latest (tbl : Table) : list Row.t :=
  match max_date tbl with
  | Some v => rows_dated v tbl
  | None => []
  end.

(** [INSERT OR REPLACE INTO exchange_rates (currency_code, rate, date)
     VALUES (?, ?, ?)]: the row with the same currency code and the same
    stored date, if any, is replaced. The column [rate] has no default, so
    a NULL rate aborts the statement. *)
Definition insert_or_replace `{Sqlite} (currency rate_date : string) (rate : float)
    (tbl : Table) : result Table :=
  match stored_rate rate with
  | Some x => Ok (<[(currency, numeric_affinity rate_date) := x]> tbl)
  | None => Raise IntegrityError
  end.

(** ** The world of the service *)

(** The table, and how many times the BNR client has been invoked. *)
Record World : Type := mkWorld { db : Table; fetch_calls : nat }.

(** What one call observes of its surroundings: [date.today()],
    [datetime.now()] (both formatted [%Y-%m-%d]) and the answer of BNR. *)
Record Env : Type := mkEnv { today : string; now : string; bnr : http_outcome }.

Definition M (A : Type) : Type := World → result A * World.

Definition ret {A} (a : A) : M A := λ w, (Ok a, w).
Definition raise {A} (e : exn) : M A := λ w, (Raise e, w).
Definition bind {A B} (m : M A) (k : A → M B) : M B :=
  λ w, match m w with
       | (Ok a, w') => k a w'
       | (Raise e, w') => (Raise e, w')
       end.
Definition lift {A} (r : result A) : M A := λ w, (r, w).

(** [try: body except Exception as error: handler] *)
Definition try_except {A} (body : M A) (handler : exn → M A) : M A :=
  λ w, match body w with
       | (Ok a, w') => (Ok a, w')
       | (Raise e, w') => handler e w'
       end.

Notation "x <- m ; k" := (bind m (λ x, k))
  (at level 20, m at level 100, k at level 200, right associativity,
   format "x  <-  m ;  '/' k").

(** ** services/currency_service.py *)

Module Entry.
(** [{"rate": ..., "date": ...}] *)
Record t : Type := mk { rate : float; date : string }.
End Entry.

Module Bnr.
(** [{"exchangeRates": ..., "date": ...}] *)
Record t : Type := mk { exchangeRates : gmap string Entry.t; date : string }.
End Bnr.

Module Latest.
(** [{"rates": ..., "date": ..., "source": ...}] *)
Record t : Type := mk { rates : gmap string float; date : value; source : string }.
End Latest.

Definition FETCH_FAILED : exn := Exception "Failed to fetch exchange rates from BNR".
Definition NO_RATES : exn := Exception "No exchange rates available".

(** Lines 173-176 of [convert_currency]: to RON first, then to the target
    currency, rounded to two decimals. *)
Definition pivot {R : Type} `{PyNumber R} (amount rate_from rate_to : R) : result R :=
  let amount_in_ron := num_mul amount rate_from in
  converted_amount <-? num_truediv amount_in_ron rate_to;
  Ok (num_round2 converted_amount).

Definition dict_of_rows (rows : list Row.t) : gmap string float :=
  foldl (λ rates row, <[Row.currency_code row := Row.rate row]> rates) ∅ rows.

(** [if cached:] is false on [None] and on an empty dict. *)
Definition truthy_dict (d : option (gmap string float)) : bool :=
  match d with
  | Some m => negb (Nat.eqb (size m) 0)
  | None => false
  end.

(** Returns [None] when no row has the date. *)
Definition get_cached_rates `{Sqlite} (rate_date : string)
    : M (option (gmap string float)) :=
  λ w,
    match select_by_date rate_date (db w) with
    | [] => (Ok None, w)
    | rows => (Ok (Some (dict_of_rows rows)), w)
    end.

(** One [INSERT OR REPLACE] per item of [rates], then the commit. The keys
    written are distinct, so the order of the items does not matter. When
    a statement raises, the connection is closed without a commit: the
    rows written before it are rolled back. *)
Definition save_rates_to_database `{Sqlite} (rates : gmap string Entry.t)
    (rate_date : string) : M unit :=
  λ w,
    match map_fold (λ currency rate_value written,
                      tbl <-? written;
                      insert_or_replace currency rate_date (Entry.rate rate_value) tbl)
                   (Ok (db w)) rates with
    | Ok tbl => (Ok tt, mkWorld tbl (fetch_calls w))
    | Raise e => (Raise e, w)
    end.

Section Service.
Context `{PyBuiltins} `{Sqlite}.

(** The body of the loop over [cube.findall(".//{...}Rate")]. In the
    branch that stores a rate, [currency_code] is a non-empty string. *)
Definition rate_step (rate_date : string) (exchange_rates : gmap string Entry.t)
    (rate_elem : Element) : result (gmap string Entry.t) :=
  let currency_code := attrib rate_elem !! "currency" in
  multiplier <-?
    match py_int (default "1" (attrib rate_elem !! "multiplier")) with
    | Some n => Ok n
    | None => Raise (ValueError "invalid literal for int()")
    end;
  rate_value <-?
    match text rate_elem with
    | Some s =>
        match py_float s with
        | Some v => Ok v
        | None => Raise (ValueError "could not convert string to float")
        end
    | None => Raise TypeError
    end;
  if Py.bool_str currency_code && Py.bool_float rate_value then
    per_unit <-? Py.truediv_int rate_value multiplier;
    Ok (<[default "" currency_code := Entry.mk per_unit rate_date]> exchange_rates)
  else Ok exchange_rates.

Fixpoint rate_loop (rate_date : string) (exchange_rates : gmap string Entry.t)
    (elems : list Element) : result (gmap string Entry.t) :=
  match elems with
  | [] => Ok exchange_rates
  | rate_elem :: rest =>
      exchange_rates' <-? rate_step rate_date exchange_rates rate_elem;
      rate_loop rate_date exchange_rates' rest
  end.

(** The [try] block of [fetch_bnr_rates]. *)
Definition fetch_bnr_rates_try (now_ : string) (answer : http_outcome) : result Bnr.t :=
  document <-?
    match answer with
    | TransportError => Raise HTTPError
    | Response status_code document =>
        if (200 <=? status_code) && (status_code <=? 299) then Ok document
        else Raise HTTPError
    end;
  root <-?
    match document with
    | Some root => Ok root
    | None => Raise ParseError
    end;
  cube <-?
    match find CUBE root with
    | Some cube => Ok cube
    | None => Raise (ValueError "Invalid response format from BNR API")
    end;
  let rate_date := default now_ (attrib cube !! "date") in
  let exchange_rates := <["RON" := Entry.mk 1 rate_date]> ∅ in
  exchange_rates <-? rate_loop rate_date exchange_rates (findall RATE cube);
  Ok (Bnr.mk exchange_rates rate_date).

(** Whatever the [try] block raises is replaced by one generic exception. *)
Definition fetch_bnr_rates (env : Env) : M Bnr.t :=
  λ w,
    let w' := mkWorld (db w) (S (fetch_calls w)) in
    match fetch_bnr_rates_try (now env) (bnr env) with
    | Ok data => (Ok data, w')
    | Raise _ => (Raise FETCH_FAILED, w')
    end.

Definition get_latest_rates (env : Env) : M Latest.t :=
  cached <- get_cached_rates (today env);
  if truthy_dict cached then
    ret (Latest.mk (default ∅ cached) (TEXT (today env)) "cache")
  else
    try_except
      (bnr_data <- fetch_bnr_rates env;
       let exchange_rates := Bnr.exchangeRates bnr_data in
       let rate_date := Bnr.date bnr_data in
       saved <- save_rates_to_database exchange_rates rate_date;
       ret (Latest.mk (Entry.rate <$> exchange_rates) (TEXT rate_date) "bnr"))
      (λ error w,
         match select_latest (db w) with
         | [] => (Raise NO_RATES, w)
         | (row0 :: _) as rows =>
             (Ok (Latest.mk (dict_of_rows rows) (Row.date row0) "cache-fallback"), w)
         end).

Definition convert_currency (env : Env) (amount : float)
    (from_currency to_currency : string) (rates : option (gmap string float))
    : M float :=
  if decide (from_currency = to_currency) then ret amount
  else
    rates <- match rates with
             | Some rates => ret rates
             | None => rates_data <- get_latest_rates env; ret (Latest.rates rates_data)
             end;
    match rates !! from_currency, rates !! to_currency with
    | Some rate_from, Some rate_to => lift (pivot amount rate_from rate_to)
    | _, _ =>
        raise (ValueError ("Exchange rate not available for " ++ from_currency
                             ++ " or " ++ to_currency))
    end.

(** A run of reads, one after the other, each with its own surroundings. *)
Fixpoint read_all (envs : list Env) (w : World) : World :=
  match envs with
  | [] => w
  | env :: rest => read_all rest (get_latest_rates env w).2
  end.

End Service.

(** ** Vocabulary of the statements *)

(** The table holds at least one row. *)
Definition has_rows (tbl : Table) : Prop := ∃ k, is_Some (tbl !! k).

(** The table holds a row dated [d]: a row that [WHERE date = d] selects. *)
Definition has_date `{Sqlite} (d : string) (tbl : Table) : Prop :=
  ∃ c, is_Some (tbl !! (c, numeric_affinity d)).

(** [rates] is the snapshot the table holds under the date [v]. *)
Definition snapshot_of (tbl : Table) (v : value) (rates : gmap string float) : Prop :=
  ∀ c, rates !! c = tbl !! (c, v).

(** [v] is the maximum of the dates present in the table, in the order of
    the column. Between two texts, as the dates YYYY-MM-DD are, this is
    the bytewise order, the order of the calendar. *)
Definition is_max_date (tbl : Table) (v : value) : Prop :=
  (∃ c, is_Some (tbl !! (c, v)))
  ∧ ∀ c' v', is_Some (tbl !! (c', v')) → value_leb v' v = true.

(** The date [d] is before the date [t], as the column orders them. *)
Definition before `{Sqlite} (d t : string) : Prop :=
  value_leb (numeric_affinity t) (numeric_affinity d) = false.

(** No rate of the snapshot is a nan: every rate can be stored. *)
Definition storable (rates : gmap string Entry.t) : Prop :=
  ∀ c e, rates !! c = Some e → PrimFloat.is_nan (Entry.rate e) = false.

#[export] Instance storable_dec (rates : gmap string Entry.t) : Decision (storable rates) :=
  map_Forall_dec (H7 := λ (_ : string) (e : Entry.t),
                          decide (PrimFloat.is_nan (Entry.rate e) = false))
    (λ (_ : string) e, PrimFloat.is_nan (Entry.rate e) = false) rates.

(** The Rate element [e] publishes the value [V] with multiplier [M] (1 when
    the attribute is absent) for the currency [c]. *)
Definition publishes `{PyBuiltins} (e : Element) (c : string) (V : float) (M : Z) : Prop :=
  attrib e !! "currency" = Some c
  ∧ text e ≫= py_float = Some V
  ∧ py_int (default "1" (attrib e !! "multiplier")) = Some M.

(** The Rate element [e] makes the loop store a rate for [c]: its code is
    [c], not empty, and its value is not zero. *)
Definition assigns `{PyBuiltins} (c : string) (e : Element) : Prop :=
  ∃ V M, publishes e c V M ∧ c ≠ "" ∧ Py.bool_float V = true.

(** The call [get_latest_rates env] made in [w] invokes the BNR client. *)
Definition fetch_invoked `{PyBuiltins} `{Sqlite} (env : Env) (w : World) : Prop :=
  fetch_calls (get_latest_rates env w).2 = S (fetch_calls w).

(** On the day [t], BNR is down or still publishes a document dated before
    [t]. *)
Definition stale_answer `{PyBuiltins} `{Sqlite} (t : string) (env : Env) : Prop :=
  today env = t
  ∧ match fetch_bnr_rates_try (now env) (bnr env) with
    | Ok data => before (Bnr.date data) t
    | Raise _ => True
    end.


(** ** Concrete documents and tables *)

Definition rate_entry (currency : string) (multiplier : option string)
    (value : string) : Element :=
  mkElement RATE
    (match multiplier with
     | Some m => <["multiplier" := m]> (<["currency" := currency]> ∅)
     | None => <["currency" := currency]> ∅
     end)
    (Some value) [].

Definition cube_elem (date : string) (entries : list Element) : Element :=
  mkElement CUBE (<["date" := date]> ∅) None entries.

(** The shape of the BNR document: DataSet / Header, Body / Cube / Rate. *)
Definition data_set (c : Element) : Element :=
  mkElement "{http://www.bnr.ro/xsd}DataSet" ∅ None
    [ mkElement "{http://www.bnr.ro/xsd}Header" ∅ None [];
      mkElement "{http://www.bnr.ro/xsd}Body" ∅ None [c] ].

Definition eur_entry : Element := rate_entry "EUR" None "5.0".
Definition huf_entry : Element := rate_entry "HUF" (Some "100") "1.2725".
Definition cube_jan10 : Element := cube_elem "2024-01-10" [eur_entry; huf_entry].
Definition data_jan10 : Bnr.t :=
  Bnr.mk (<["HUF" := Entry.mk (1.2725 / 100) "2024-01-10"]>
            (<["EUR" := Entry.mk 5 "2024-01-10"]>
               (<["RON" := Entry.mk 1 "2024-01-10"]> ∅)))
         "2024-01-10".

(** A published value of zero. *)
Definition zero_entry : Element := rate_entry "EUR" None "0.0".
Definition cube_zero : Element := cube_elem "2024-01-10" [zero_entry].

(** A published value so small that a hundredth of it is no longer a
    positive binary64 number. *)
Definition tiny_entry : Element := rate_entry "XXX" (Some "100") "1e-323".
Definition cube_tiny : Element := cube_elem "2024-01-10" [tiny_entry].
Definition data_tiny : Bnr.t :=
  Bnr.mk (<["XXX" := Entry.mk 0 "2024-01-10"]>
            (<["RON" := Entry.mk 1 "2024-01-10"]> ∅))
         "2024-01-10".

(** A Cube without its date attribute. *)
Definition cube_undated : Element := mkElement CUBE ∅ None [eur_entry].


(** A published value that [float] reads as a nan. *)
Definition nan_entry : Element := rate_entry "USD" None "nan".
Definition cube_nan : Element := cube_elem "2024-01-15" [eur_entry; nan_entry].
Definition data_nan : Bnr.t :=
  Bnr.mk (<["USD" := Entry.mk nan "2024-01-15"]>
            (<["EUR" := Entry.mk 5 "2024-01-15"]>
               (<["RON" := Entry.mk 1 "2024-01-15"]> ∅)))
         "2024-01-15".

(** A negative value so small that a hundredth of it is -0.0. *)
Definition negative_tiny_entry : Element := rate_entry "XXX" (Some "100") "-1e-323".
Definition cube_negative_tiny : Element := cube_elem "2024-01-15" [negative_tiny_entry].

(** A document whose date is the text 2025, a numeric literal. *)
Definition cube_2025 : Element := cube_elem "2025" [eur_entry].

Definition env_jan15 (answer : http_outcome) : Env :=
  mkEnv "2024-01-15" "2024-01-15" answer.

Definition env_jan10 (answer : http_outcome) : Env :=
  mkEnv "2024-01-10" "2024-01-10" answer.

Definition empty_world : World := mkWorld ∅ 0.
Definition table_jan10 : Table :=
  <[("EUR", TEXT "2024-01-10") := 5%float]> (<[("RON", TEXT "2024-01-10") := 1%float]> ∅).
Definition table_jan15 : Table :=
  <[("EUR", TEXT "2024-01-15") := 5%float]> (<[("RON", TEXT "2024-01-15") := 1%float]> ∅).
Definition rates_ron_eur : gmap string float :=
  <["RON" := 1%float]> (<["EUR" := 5%float]> ∅).
Definition rates_zero_eur : gmap string float :=
  <["RON" := 1%float]> (<["EUR" := 0%float]> ∅).

(** ** Reading numeric literals

    [exact_literals] is the reading of texts as numbers used to run the
    service on concrete tables. It accepts what SQLite accepts as a
    numeric literal (blanks, a sign, digits with an optional fraction, an
    optional exponent, blanks) and takes the value of the literal exactly.
    SQLite rounds a literal that is not an integer of 64 bits to a double:
    the two readings agree on which texts are numbers, and on which
    literals are equal or smaller for literals of up to 15 significant
    digits within the range of the doubles. *)
Definition is_space (c : ascii) : bool :=
  let n := N_of_ascii c in
  ((n =? 32) || ((9 <=? n) && (n <=? 13)))%N.

Fixpoint skip_spaces (s : string) : string :=
  match s with
  | String c r => if is_space c then skip_spaces r else s
  | EmptyString => s
  end.

(** The exact value of [(-1)^neg * n * 10^k]. *)
Definition decimal_value (neg : bool) (n k : Z) : Qc :=
  let m := if neg then - n else n in
  if 0 <=? k then Q2Qc (inject_Z (m * 10 ^ k))
  else Q2Qc (Qred (m # Z.to_pos (10 ^ (- k)))).

Definition exact_literal (s : string) : option numeric :=
  let '(neg, r) := read_sign (skip_spaces s) in
  let '(ip, r1) := span_digits r in
  let '(fp, r2) :=
    match r1 with
    | String "." t => span_digits t
    | _ => ([], r1)
    end in
  match ip ++ fp with
  | [] => None
  | ds =>
      let '(exponent, r3) :=
        match r2 with
        | String "e" t | String "E" t =>
            let '(eneg, t1) := read_sign t in
            match span_digits t1 with
            | ((_ :: _) as es, t2) =>
                (Some (if eneg : bool then - Z_of_digits es else Z_of_digits es), t2)
            | _ => (None, t)
            end
        | _ => (Some 0, r2)
        end in
      match exponent, skip_spaces r3 with
      | Some e, EmptyString =>
          Some (Finite (decimal_value neg (Z_of_digits ds) (e - Z.of_nat (length fp))))
      | _, _ => None
      end
  end.

Definition exact_literals : Sqlite :=
  {| numeric_literal := exact_literal |}.

(** The number 2025, as the column stores the texts 2025 and 2025.0. *)
Definition year_2025 : value := NUMBER (Finite (Q2Qc 2025)).

(** ** The refresh: [update_exchange_rates] *)

Section Refresh.
Context `{PyBuiltins} `{Sqlite}.

(** Whatever the [try] block raises is logged and answered with [False]. *)
Definition update_exchange_rates (env : Env) : M bool :=
  try_except
    (bnr_data <- fetch_bnr_rates env;
     let exchange_rates := Bnr.exchangeRates bnr_data in
     let rate_date := Bnr.date bnr_data in
     saved <- save_rates_to_database exchange_rates rate_date;
     ret true)
    (λ error, ret false).

End Refresh.

(** ** routers/currency.py

    A handler returns its body or raises FastAPI's [HTTPException]; what
    FastAPI does with a returned body (the validation against the
    [response_model], the encoding as JSON) is not part of the handlers. *)

(** The [detail] of an [HTTPException]: a literal, or [str(e)] of what was
    caught. [str] of an [Exception] or a [ValueError] built from one
    message is the message; the text of the other exceptions is left
    symbolic, as is that of a caught [HTTPException]. *)
Inductive detail : Type :=
| Text (s : string)
| StrOf (e : exn)
| StrOfHTTPException (status_code : Z) (text : string).

Definition str (e : exn) : detail :=
  match e with
  | Exception msg | ValueError msg => Text msg
  | _ => StrOf e
  end.

Inductive reply (A : Type) : Type :=
| Reply (body : A)
| HTTPException (status_code : Z) (why : detail).
Arguments Reply {A} body.
Arguments HTTPException {A} status_code why.

Module CurrencyRates.
Record t : Type :=
  mk { rates : gmap string float; date : value; source : string; baseCurrency : string }.
End CurrencyRates.

Module CurrencyConvertRequest.
Record t : Type := mk { amount : float; fromCurrency : string; toCurrency : string }.
End CurrencyConvertRequest.

Module CurrencyConvertResponse.
Record t : Type :=
  mk { originalAmount : float; fromCurrency : string; toCurrency : string;
       convertedAmount : float; timestamp : string }.
End CurrencyConvertResponse.

Module UpdateRatesResponse.
Record t : Type := mk { message : string; date : value; currencyCount : nat }.
End UpdateRatesResponse.

Module Router.
Section Handlers.
Context `{PyBuiltins} `{Sqlite}.

(** [GET /rates] *)
Definition get_rates (env : Env) (w : World) : reply CurrencyRates.t * World :=
  match get_latest_rates env w with
  | (Ok rates_data, w') =>
      (Reply (CurrencyRates.mk (Latest.rates rates_data) (Latest.date rates_data)
                (Latest.source rates_data) "RON"), w')
  | (Raise e, w') => (HTTPException 500 (str e), w')
  end.

(** [POST /convert]; [timestamp] is [datetime.now().isoformat()] at the
    time of the answer. The check of the fields stands before the [try]. *)
Definition convert (env : Env) (timestamp : string) (request : CurrencyConvertRequest.t)
    (w : World) : reply CurrencyConvertResponse.t * World :=
  if negb (Py.bool_float (CurrencyConvertRequest.amount request))
     || negb (Py.bool_str (Some (CurrencyConvertRequest.fromCurrency request)))
     || negb (Py.bool_str (Some (CurrencyConvertRequest.toCurrency request)))
  then
    (HTTPException 400 (Text "Missing required fields: amount, fromCurrency, toCurrency"), w)
  else
    match convert_currency env (CurrencyConvertRequest.amount request)
            (CurrencyConvertRequest.fromCurrency request)
            (CurrencyConvertRequest.toCurrency request) None w with
    | (Ok converted_amount, w') =>
        (Reply (CurrencyConvertResponse.mk
                  (CurrencyConvertRequest.amount request)
                  (CurrencyConvertRequest.fromCurrency request)
                  (CurrencyConvertRequest.toCurrency request)
                  converted_amount timestamp), w')
    | (Raise e, w') => (HTTPException 500 (str e), w')
    end.

(** [POST /update-rates]: the refresh and the read that follows are two
    calls of the service, each with its own surroundings. The
    [HTTPException] raised inside the [try] is caught by its [except] and
    raised again with status 500. *)
Definition trigger_update_rates (env_update env_read : Env) (w : World)
    : reply UpdateRatesResponse.t * World :=
  match update_exchange_rates env_update w with
  | (Ok true, w1) =>
      match get_latest_rates env_read w1 with
      | (Ok rates_data, w2) =>
          (Reply (UpdateRatesResponse.mk "Exchange rates updated successfully"
                    (Latest.date rates_data) (size (Latest.rates rates_data))), w2)
      | (Raise e, w2) => (HTTPException 500 (str e), w2)
      end
  | (Ok false, w1) =>
      (HTTPException 500 (StrOfHTTPException 500 "Failed to update exchange rates"), w1)
  | (Raise e, w1) => (HTTPException 500 (str e), w1)
  end.

End Handlers.

(** The table [user_preferences], keyed by its [UNIQUE] column [key]. *)
Abbreviation Preferences := (gmap string string).

(** [init_database]: [INSERT OR IGNORE INTO user_preferences (key, value)
     VALUES ('display_currency', 'RON')] *)
Definition init_preferences (prefs : Preferences) : Preferences :=
  match prefs !! "display_currency" with
  | Some _ => prefs
  | None => <["display_currency" := "RON"]> prefs
  end.

(** [GET /preference] *)
Definition get_preference (prefs : Preferences) : string :=
  match prefs !! "display_currency" with
  | Some value => value
  | None => "RON"
  end.

(** [PUT /preference]: the answer is the pair (displayCurrency, message). *)
Definition set_preference (displayCurrency : string) (prefs : Preferences)
    : reply (string * string) * Preferences :=
  if negb (Py.bool_str (Some displayCurrency)) then
    (HTTPException 400 (Text "displayCurrency is required"), prefs)
  else
    (Reply (displayCurrency, "Preference updated successfully"),
     <["display_currency" := displayCurrency]> prefs).

End Router.

(** * Properties *)

(** ** The order of the column *)

Lemma string_compare_refl (a : string) : String.compare a a = Eq.
Proof.
  induction a as [|x a IH]; simpl; [done|].
  unfold Ascii.compare. by rewrite N.compare_refl.
Qed.

Lemma string_leb_refl (a : string) : String.leb a a = true.
Proof. unfold String.leb. by rewrite string_compare_refl. Qed.

Lemma string_leb_trans (a b c : string) :
  String.leb a b = true → String.leb b c = true → String.leb a c = true.
Proof.
  unfold String.leb. revert b c.
  induction a as [|x a IH]; intros [|y b] [|z c]; simpl; try done.
  unfold Ascii.compare.
  destruct (N.compare_spec (N_of_ascii x) (N_of_ascii y)) as [Hxy|Hxy|Hxy];
    destruct (N.compare_spec (N_of_ascii y) (N_of_ascii z)) as [Hyz|Hyz|Hyz];
    destruct (N.compare_spec (N_of_ascii x) (N_of_ascii z)) as [Hxz|Hxz|Hxz];
    try done; try lia.
  apply IH.
Qed.

Lemma numeric_leb_refl (n : numeric) : numeric_leb n n = true.
Proof. destruct n; simpl; [done| |done]. apply Qle_bool_iff, Qle_refl. Qed.

Lemma numeric_leb_total (m n : numeric) :
  numeric_leb m n = true ∨ numeric_leb n m = true.
Proof.
  destruct m as [|p|], n as [|q|]; simpl; auto.
  rewrite !Qle_bool_iff.
  destruct (Qlt_le_dec p q) as [Hlt|Hle]; [left; by apply Qlt_le_weak|by right].
Qed.

Lemma numeric_leb_trans (a b c : numeric) :
  numeric_leb a b = true → numeric_leb b c = true → numeric_leb a c = true.
Proof.
  destruct a, b, c; simpl; try done. rewrite !Qle_bool_iff. apply Qle_trans.
Qed.

Lemma value_leb_refl (a : value) : value_leb a a = true.
Proof. destruct a; simpl; [apply numeric_leb_refl|apply string_leb_refl]. Qed.

Lemma value_leb_total (a b : value) : value_leb a b = true ∨ value_leb b a = true.
Proof.
  destruct a, b; simpl; auto using numeric_leb_total. apply String.leb_total.
Qed.

Lemma value_leb_trans (a b c : value) :
  value_leb a b = true → value_leb b c = true → value_leb a c = true.
Proof.
  destruct a, b, c; simpl; try done; [apply numeric_leb_trans|apply string_leb_trans].
Qed.

Lemma later_date_cases (a b : value) :
  (later_date a b = a ∨ later_date a b = b)
  ∧ value_leb a (later_date a b) = true
  ∧ value_leb b (later_date a b) = true.
Proof.
  unfold later_date. destruct (value_leb a b) eqn:Hab.
  - split_and!; auto using value_leb_refl.
  - split_and!; auto using value_leb_refl.
    destruct (value_leb_total a b) as [Hle|Hle]; [congruence|done].
Qed.

(** ** The float the column gives back *)

Lemma read_back_nonzero (x : float) : PrimFloat.eqb x 0 = false → read_back x = x.
Proof. unfold read_back. by intros ->. Qed.

Lemma read_back_zero (x : float) : PrimFloat.eqb x 0 = true → read_back x = 0%float.
Proof. unfold read_back. by intros ->. Qed.

Lemma read_back_eqb_zero (x : float) :
  PrimFloat.eqb (read_back x) 0 = PrimFloat.eqb x 0.
Proof. unfold read_back. by destruct (PrimFloat.eqb x 0) eqn:Hx. Qed.

Lemma read_back_idemp (x : float) : read_back (read_back x) = read_back x.
Proof. unfold read_back. destruct (PrimFloat.eqb x 0) eqn:Hx; [done|by rewrite Hx]. Qed.

(** ** Rows of the table *)

Lemma elem_of_rows (tbl : Table) (r : Row.t) :
  r ∈ rows tbl ↔ tbl !! (Row.currency_code r, Row.date r) = Some (Row.rate r).
Proof.
  unfold rows. rewrite list_elem_of_fmap. split.
  - intros ([[c d] v] & -> & Hin). simpl. by apply elem_of_map_to_list.
  - intros Hl. exists ((Row.currency_code r, Row.date r), Row.rate r).
    split; [by destruct r|]. by apply elem_of_map_to_list.
Qed.

Lemma NoDup_rows (tbl : Table) : NoDup (rows tbl).
Proof.
  unfold rows. apply NoDup_fmap_2_strong; [|apply NoDup_map_to_list].
  intros [[c d] v] [[c' d'] v'] _ _. simpl. by intros [= -> -> ->].
Qed.

Lemma elem_of_rows_dated (v : value) (tbl : Table) (r : Row.t) :
  r ∈ rows_dated v tbl
  ↔ Row.date r = v ∧ tbl !! (Row.currency_code r, v) = Some (Row.rate r).
Proof.
  unfold rows_dated. rewrite list_elem_of_filter, elem_of_rows.
  split; intros [Hd Hl]; split; try done; by rewrite ?Hd in *.
Qed.

Lemma NoDup_rows_dated (v : value) (tbl : Table) :
  NoDup (Row.currency_code <$> rows_dated v tbl).
Proof.
  apply NoDup_fmap_2_strong.
  - intros [c1 v1 d1] [c2 v2 d2]
      [Hd1 Hl1]%elem_of_rows_dated [Hd2 Hl2]%elem_of_rows_dated Hc.
    simpl in *. subst. rewrite Hl1 in Hl2. by injection Hl2 as ->.
  - unfold rows_dated. apply NoDup_filter, NoDup_rows.
Qed.

Lemma rows_dated_nil (v : value) (tbl : Table) :
  rows_dated v tbl = [] ↔ ∀ c, tbl !! (c, v) = None.
Proof.
  split.
  - intros Hnil c. destruct (tbl !! (c, v)) as [x|] eqn:Hl; [|done].
    assert (Row.mk c x v ∈ rows_dated v tbl) as Hin
      by by apply elem_of_rows_dated.
    rewrite Hnil in Hin. by apply not_elem_of_nil in Hin.
  - intros Hnone. destruct (rows_dated v tbl) as [|r l] eqn:Hs; [done|].
    assert (r ∈ rows_dated v tbl) as [_ Hl]%elem_of_rows_dated
      by (rewrite Hs; left).
    by rewrite Hnone in Hl.
Qed.

(** ** The dict built from rows *)

Lemma dict_of_rows_acc_notin (l : list Row.t) (m : gmap string float) (c : string) :
  (∀ r, r ∈ l → Row.currency_code r ≠ c) →
  foldl (λ rates row, <[Row.currency_code row := Row.rate row]> rates) m l !! c = m !! c.
Proof.
  revert m. induction l as [|r l IH]; intros m Hne; simpl; [done|].
  rewrite IH by (intros; apply Hne; by right).
  apply lookup_insert_ne, Hne. by left.
Qed.

Lemma dict_of_rows_acc_in (l : list Row.t) (m : gmap string float) (r : Row.t) :
  NoDup (Row.currency_code <$> l) → r ∈ l →
  foldl (λ rates row, <[Row.currency_code row := Row.rate row]> rates) m l
    !! Row.currency_code r = Some (Row.rate r).
Proof.
  revert m. induction l as [|r' l IH]; intros m Hnd Hin; simpl.
  { by apply not_elem_of_nil in Hin. }
  rewrite fmap_cons in Hnd. apply NoDup_cons in Hnd as [Hnotin Hnd].
  apply elem_of_cons in Hin as [->|Hin]; [|by apply IH].
  rewrite dict_of_rows_acc_notin; [apply lookup_insert_eq|].
  intros r Hr Heq. apply Hnotin. rewrite <- Heq. by apply list_elem_of_fmap_2.
Qed.

Lemma dict_of_rows_dated (v : value) (tbl : Table) (c : string) :
  dict_of_rows (rows_dated v tbl) !! c = tbl !! (c, v).
Proof.
  unfold dict_of_rows. destruct (tbl !! (c, v)) as [x|] eqn:Hl.
  - assert (Row.mk c x v ∈ rows_dated v tbl) as Hin
      by by apply elem_of_rows_dated.
    apply (dict_of_rows_acc_in _ ∅) in Hin; [done|apply NoDup_rows_dated].
  - rewrite dict_of_rows_acc_notin; [done|].
    intros r [Hd Hr]%elem_of_rows_dated <-. congruence.
Qed.

Lemma dict_of_rows_acc_nonempty (l : list Row.t) (m : gmap string float) :
  m ≠ ∅ →
  foldl (λ rates row, <[Row.currency_code row := Row.rate row]> rates) m l ≠ ∅.
Proof.
  revert m. induction l as [|r l IH]; intros m Hm; simpl; [done|].
  apply IH, insert_non_empty.
Qed.

Lemma dict_of_rows_nonempty (rows : list Row.t) :
  rows ≠ [] → dict_of_rows rows ≠ ∅.
Proof.
  destruct rows as [|r l]; [done|]. intros _. unfold dict_of_rows. simpl.
  apply dict_of_rows_acc_nonempty, insert_non_empty.
Qed.

Lemma truthy_dict_of_rows (r : Row.t) (l : list Row.t) :
  truthy_dict (Some (dict_of_rows (r :: l))) = true.
Proof.
  unfold truthy_dict. apply negb_true_iff, Nat.eqb_neq.
  intros Hsz%map_size_empty_iff. by apply (dict_of_rows_nonempty (r :: l)).
Qed.

(** ** MAX(date) *)

Lemma max_date_spec (tbl : Table) :
  match max_date tbl with
  | Some v => is_max_date tbl v
  | None => tbl = ∅
  end.
Proof.
  unfold max_date, is_max_date.
  assert (∀ l : list Row.t,
    match foldr (λ r acc, Some (match acc with
                                | None => Row.date r
                                | Some m => later_date m (Row.date r)
                                end)) None l with
    | Some v => (∃ r, r ∈ l ∧ Row.date r = v)
                ∧ ∀ r, r ∈ l → value_leb (Row.date r) v = true
    | None => l = []
    end) as Hfold.
  { induction l as [|r l IH]; simpl; [done|].
    destruct (foldr _ None l) as [m|].
    - destruct IH as [(r0 & Hr0 & Hd0) Hmax].
      destruct (later_date_cases m (Row.date r)) as ([Hm|Hm] & Hle1 & Hle2).
      + split; [exists r0; split; [by right|congruence]|].
        intros r' [->|Hr']%elem_of_cons; [done|].
        eapply value_leb_trans; [by apply Hmax|done].
      + split; [exists r; split; [by left|congruence]|].
        intros r' [->|Hr']%elem_of_cons; [done|].
        eapply value_leb_trans; [by apply Hmax|done].
    - subst l. split; [exists r; split; [by left|done]|].
      intros r' [->|Hr']%elem_of_cons; [apply value_leb_refl|].
      by apply not_elem_of_nil in Hr'. }
  specialize (Hfold (rows tbl)). destruct (foldr _ None (rows tbl)) as [v|].
  - destruct Hfold as [(r & Hr & Hd) Hmax]. split.
    + exists (Row.currency_code r). apply elem_of_rows in Hr. rewrite <- Hd. eauto.
    + intros c' v' [x Hx]. apply (Hmax (Row.mk c' x v')). by apply elem_of_rows.
  - apply map_to_list_empty_iff. unfold rows in Hfold.
    by apply fmap_nil_inv in Hfold.
Qed.

Lemma select_latest_spec (tbl : Table) :
  match select_latest tbl with
  | [] => tbl = ∅
  | row0 :: _ =>
      is_max_date tbl (Row.date row0)
      ∧ select_latest tbl = rows_dated (Row.date row0) tbl
  end.
Proof.
  unfold select_latest. pose proof (max_date_spec tbl) as Hmax.
  destruct (max_date tbl) as [v|]; [|done].
  destruct (rows_dated v tbl) as [|row0 l] eqn:Hs.
  { exfalso. destruct Hmax as [[c [x Hx]] _].
    pose proof (proj1 (rows_dated_nil v tbl) Hs c) as Hnone. congruence. }
  assert (row0 ∈ rows_dated v tbl) as [-> _]%elem_of_rows_dated
    by (rewrite Hs; left).
  by split.
Qed.

(** ** What one save does *)

Lemma storable_cases (rates : gmap string Entry.t) :
  storable rates ∨ ¬ storable rates.
Proof. destruct (decide (storable rates)); [by left|by right]. Qed.

Section Properties.
Context `{PyBuiltins} `{Sqlite}.

Lemma save_fold (rates : gmap string Entry.t) (d : string) (tbl : Table) :
  match map_fold (λ currency rate_value written,
                    tbl <-? written;
                    insert_or_replace currency d (Entry.rate rate_value) tbl)
                 (Ok tbl) rates with
  | Ok tbl' =>
      storable rates
      ∧ ∀ c v, tbl' !! (c, v)
               = if decide (v = numeric_affinity d) then
                   match rates !! c with
                   | Some e => Some (read_back (Entry.rate e))
                   | None => tbl !! (c, v)
                   end
                 else tbl !! (c, v)
  | Raise e => e = IntegrityError ∧ ¬ storable rates
  end.
Proof.
  apply (map_fold_weak_ind (λ r m,
    match r with
    | Ok tbl' =>
        storable m
        ∧ ∀ c v, tbl' !! (c, v)
                 = if decide (v = numeric_affinity d) then
                     match m !! c with
                     | Some e => Some (read_back (Entry.rate e))
                     | None => tbl !! (c, v)
                     end
                   else tbl !! (c, v)
    | Raise e => e = IntegrityError ∧ ¬ storable m
    end)).
  - split; [intros c e; by rewrite lookup_empty|].
    intros c v. rewrite lookup_empty. by case_decide.
  - intros i x m [tbl'|e] Hi; simpl.
    + intros [Hst Hl]. unfold insert_or_replace, stored_rate.
      destruct (PrimFloat.is_nan (Entry.rate x)) eqn:Hnan.
      * split; [done|]. intros Hall.
        specialize (Hall i x (lookup_insert_eq _ _ _)). congruence.
      * split.
        { intros c e [[<- <-]|[_ Hc]]%lookup_insert_Some; [done|by apply (Hst c)]. }
        intros c v. destruct (decide ((i, numeric_affinity d) = (c, v))) as [[= <- <-]|Hne].
        { rewrite !lookup_insert_eq. by rewrite decide_True. }
        rewrite lookup_insert_ne by done. rewrite Hl.
        case_decide; [|done]. subst v.
        rewrite lookup_insert_ne; [done|congruence].
    + intros [-> Hno]. split; [done|]. intros Hall. apply Hno.
      intros c e Hc. apply (Hall c). rewrite lookup_insert_ne; [done|congruence].
Qed.

Lemma save_ok (rates : gmap string Entry.t) (d : string) (w : World) :
  storable rates →
  ∃ tbl,
    save_rates_to_database rates d w = (Ok tt, mkWorld tbl (fetch_calls w))
    ∧ ∀ c v, tbl !! (c, v)
             = if decide (v = numeric_affinity d) then
                 match rates !! c with
                 | Some e => Some (read_back (Entry.rate e))
                 | None => db w !! (c, v)
                 end
               else db w !! (c, v).
Proof.
  intros Hst. unfold save_rates_to_database.
  pose proof (save_fold rates d (db w)) as Hfold.
  destruct (map_fold _ _ _) as [tbl|e]; [|by destruct Hfold].
  exists tbl. by destruct Hfold.
Qed.

Lemma save_raises (rates : gmap string Entry.t) (d : string) (w : World) :
  ¬ storable rates →
  save_rates_to_database rates d w = (Raise IntegrityError, w).
Proof.
  intros Hno. unfold save_rates_to_database.
  pose proof (save_fold rates d (db w)) as Hfold.
  destruct (map_fold _ _ _) as [tbl|e]; [by destruct Hfold|].
  by destruct Hfold as [-> _].
Qed.

Lemma save_keeps_rows (rates : gmap string Entry.t) (d : string) (w : World)
    (k : string * value) :
  is_Some (db w !! k) → is_Some (db (save_rates_to_database rates d w).2 !! k).
Proof.
  intros Hk. destruct (storable_cases rates) as [Hst|Hno].
  - destruct (save_ok rates d w Hst) as (tbl & -> & Hl). simpl.
    destruct k as [c v]. rewrite Hl. case_decide; [|done]. by destruct (rates !! c).
  - by rewrite save_raises.
Qed.

Lemma save_calls (rates : gmap string Entry.t) (d : string) (w : World) :
  fetch_calls (save_rates_to_database rates d w).2 = fetch_calls w.
Proof.
  destruct (storable_cases rates) as [Hst|Hno].
  - by destruct (save_ok rates d w Hst) as (tbl & -> & _).
  - by rewrite save_raises.
Qed.

(** ** What one read does *)

Lemma has_date_select (d : string) (tbl : Table) :
  has_date d tbl ↔ select_by_date d tbl ≠ [].
Proof.
  unfold select_by_date. rewrite rows_dated_nil. split.
  - intros [c [v Hv]] Hnone. by rewrite Hnone in Hv.
  - intros Hne. destruct (rows_dated (numeric_affinity d) tbl) as [|r l] eqn:Hs.
    { exfalso. apply Hne. by apply rows_dated_nil. }
    assert (r ∈ rows_dated (numeric_affinity d) tbl) as [_ Hl]%elem_of_rows_dated
      by (rewrite Hs; left).
    exists (Row.currency_code r). eauto.
Qed.

Lemma has_date_cases (d : string) (tbl : Table) :
  has_date d tbl ∨ ¬ has_date d tbl.
Proof.
  rewrite has_date_select. destruct (select_by_date d tbl); [right|left]; naive_solver.
Qed.

Lemma dict_of_select_by_date (d : string) (tbl : Table) (c : string) :
  dict_of_rows (select_by_date d tbl) !! c = tbl !! (c, numeric_affinity d).
Proof. apply dict_of_rows_dated. Qed.

Lemma before_ne (d t : string) :
  before d t → numeric_affinity d ≠ numeric_affinity t.
Proof.
  unfold before. intros Hlt Heq. rewrite Heq in Hlt.
  by rewrite value_leb_refl in Hlt.
Qed.

Lemma get_latest_rates_hit (env : Env) (w : World) :
  has_date (today env) (db w) →
  get_latest_rates env w
  = (Ok (Latest.mk (dict_of_rows (select_by_date (today env) (db w)))
                   (TEXT (today env)) "cache"), w).
Proof.
  intros Hd%has_date_select. unfold get_latest_rates, bind, get_cached_rates.
  destruct (select_by_date (today env) (db w)) as [|r l] eqn:Hs; [done|].
  by rewrite truthy_dict_of_rows.
Qed.

(** The [except] branch of [get_latest_rates], run after the client was
    invoked. *)
Lemma get_latest_rates_fallback (env : Env) (w : World) :
  ¬ has_date (today env) (db w) →
  is_raise (fetch_bnr_rates_try (now env) (bnr env)) = true
  ∨ (∃ data, fetch_bnr_rates_try (now env) (bnr env) = Ok data
             ∧ ¬ storable (Bnr.exchangeRates data)) →
  get_latest_rates env w
  = match select_latest (db w) with
    | [] => (Raise NO_RATES, mkWorld (db w) (S (fetch_calls w)))
    | row0 :: _ =>
        (Ok (Latest.mk (dict_of_rows (select_latest (db w)))
                       (Row.date row0) "cache-fallback"),
         mkWorld (db w) (S (fetch_calls w)))
    end.
Proof.
  intros Hd Hwhy. unfold get_latest_rates, bind, get_cached_rates.
  destruct (select_by_date (today env) (db w)) as [|r l] eqn:Hs.
  2:{ exfalso. apply Hd, has_date_select. by rewrite Hs. }
  simpl. unfold try_except, fetch_bnr_rates.
  destruct (fetch_bnr_rates_try (now env) (bnr env)) as [data|e]; simpl.
  - destruct Hwhy as [?|(data' & [= <-] & Hno)]; [done|].
    rewrite save_raises by done. simpl. by destruct (select_latest (db w)).
  - by destruct (select_latest (db w)).
Qed.

(** The live branch: the client answers and the snapshot is stored. *)
Lemma get_latest_rates_live (env : Env) (w : World) (data : Bnr.t) :
  ¬ has_date (today env) (db w) →
  fetch_bnr_rates_try (now env) (bnr env) = Ok data →
  storable (Bnr.exchangeRates data) →
  ∃ tbl,
    get_latest_rates env w
    = (Ok (Latest.mk (Entry.rate <$> Bnr.exchangeRates data)
                     (TEXT (Bnr.date data)) "bnr"),
       mkWorld tbl (S (fetch_calls w)))
    ∧ ∀ c v, tbl !! (c, v)
             = if decide (v = numeric_affinity (Bnr.date data)) then
                 match Bnr.exchangeRates data !! c with
                 | Some e => Some (read_back (Entry.rate e))
                 | None => db w !! (c, v)
                 end
               else db w !! (c, v).
Proof.
  intros Hd Hfetch Hst. unfold get_latest_rates, bind, get_cached_rates.
  destruct (select_by_date (today env) (db w)) as [|r l] eqn:Hs.
  2:{ exfalso. apply Hd, has_date_select. by rewrite Hs. }
  simpl. unfold try_except, fetch_bnr_rates. rewrite Hfetch.
  destruct (save_ok (Bnr.exchangeRates data) (Bnr.date data)
              (mkWorld (db w) (S (fetch_calls w))) Hst) as (tbl & -> & Hl).
  exists tbl. by split.
Qed.

(** The three ways of a read that finds no row dated today. *)
Lemma get_latest_rates_miss (env : Env) (w : World) :
  ¬ has_date (today env) (db w) →
  (∃ data, fetch_bnr_rates_try (now env) (bnr env) = Ok data
           ∧ storable (Bnr.exchangeRates data))
  ∨ (∃ data, fetch_bnr_rates_try (now env) (bnr env) = Ok data
             ∧ ¬ storable (Bnr.exchangeRates data))
  ∨ is_raise (fetch_bnr_rates_try (now env) (bnr env)) = true.
Proof.
  intros _. destruct (fetch_bnr_rates_try _ _) as [data|e]; [|by right; right].
  destruct (storable_cases (Bnr.exchangeRates data)); [left|right; left]; eauto.
Qed.

Lemma fetch_invoked_iff (env : Env) (w : World) :
  fetch_invoked env w ↔ ¬ has_date (today env) (db w).
Proof.
  unfold fetch_invoked. split.
  - intros Hc Hd. rewrite get_latest_rates_hit in Hc by done. simpl in Hc. lia.
  - intros Hd.
    destruct (get_latest_rates_miss env w Hd)
      as [(data & Hfetch & Hst)|[(data & Hfetch & Hno)|Hfail]].
    + by destruct (get_latest_rates_live env w data Hd Hfetch Hst) as (tbl & -> & _).
    + rewrite get_latest_rates_fallback by eauto. by destruct (select_latest (db w)).
    + rewrite get_latest_rates_fallback by eauto. by destruct (select_latest (db w)).
Qed.

Lemma fetch_bnr_rates_fails (env : Env) (w : World) :
  (fetch_bnr_rates env w).1 = Raise FETCH_FAILED
  ↔ is_raise (fetch_bnr_rates_try (now env) (bnr env)) = true.
Proof.
  unfold fetch_bnr_rates. by destruct (fetch_bnr_rates_try _ _).
Qed.

Lemma fetch_bnr_rates_returns (env : Env) (w : World) (data : Bnr.t) :
  (fetch_bnr_rates env w).1 = Ok data
  ↔ fetch_bnr_rates_try (now env) (bnr env) = Ok data.
Proof.
  unfold fetch_bnr_rates. destruct (fetch_bnr_rates_try _ _); simpl; naive_solver.
Qed.

(** A read fails only on an empty table, after the except branch. *)
Lemma get_latest_rates_raises (env : Env) (w : World) (e : exn) :
  (get_latest_rates env w).1 = Raise e →
  e = NO_RATES ∧ db w = ∅
  ∧ (is_raise (fetch_bnr_rates_try (now env) (bnr env)) = true
     ∨ ∃ data, fetch_bnr_rates_try (now env) (bnr env) = Ok data
               ∧ ¬ storable (Bnr.exchangeRates data)).
Proof.
  destruct (has_date_cases (today env) (db w)) as [Hd|Hd].
  { by rewrite get_latest_rates_hit. }
  destruct (get_latest_rates_miss env w Hd)
    as [(data & Hfetch & Hst)|[(data & Hfetch & Hno)|Hfail]].
  - by destruct (get_latest_rates_live env w data Hd Hfetch Hst) as (tbl & -> & _).
  - rewrite get_latest_rates_fallback by eauto.
    pose proof (select_latest_spec (db w)) as Hsel.
    destruct (select_latest (db w)); [|done]. simpl. intros [= <-].
    split_and!; eauto.
  - rewrite get_latest_rates_fallback by eauto.
    pose proof (select_latest_spec (db w)) as Hsel.
    destruct (select_latest (db w)); [|done]. simpl. intros [= <-].
    split_and!; eauto.
Qed.

Lemma no_date_in_empty (d : string) : ¬ has_date d (∅ : Table).
Proof. intros [c [v Hv]]. by rewrite lookup_empty in Hv. Qed.

Lemma rate_step_ok (d : string) (acc out : gmap string Entry.t) (e : Element) :
  rate_step d acc e = Ok out →
  ∃ V M,
    text e ≫= py_float = Some V
    ∧ py_int (default "1" (attrib e !! "multiplier")) = Some M
    ∧ if Py.bool_str (attrib e !! "currency") && Py.bool_float V then
        ∃ c fM, attrib e !! "currency" = Some c ∧ c ≠ ""
                ∧ Py.bool_float V = true
                ∧ Py.float_of_int M = Ok fM ∧ PrimFloat.eqb fM 0 = false
                ∧ out = <[c := Entry.mk (V / fM) d]> acc
      else out = acc.
Proof.
  unfold rate_step.
  destruct (py_int _) as [M|]; [|done].
  destruct (text e) as [s|]; [|done]. simpl.
  destruct (py_float s) as [V|]; [|done]. simpl.
  intros Hstep. exists V, M. split_and!; [done..|].
  destruct (Py.bool_str _ && Py.bool_float V) eqn:Hc.
  - apply andb_true_iff in Hc as [Hs HV].
    destruct (attrib e !! "currency") as [[|a c]|]; try done.
    unfold Py.truediv_int, Py.truediv in Hstep.
    destruct (Py.float_of_int M) as [fM|]; [|done]. simpl in Hstep.
    destruct (PrimFloat.eqb fM 0) eqn:Hz; [done|].
    injection Hstep as <-. exists (String a c), fM. by split_and!.
  - by injection Hstep.
Qed.

Lemma rate_step_skip (d : string) (acc out : gmap string Entry.t) (e : Element)
    (c : string) :
  rate_step d acc e = Ok out → ¬ assigns c e → out !! c = acc !! c.
Proof.
  intros (V & M & HV & HM & Hout)%rate_step_ok Hno.
  destruct (_ && _); [|by subst].
  destruct Hout as (c' & fM & Hc' & Hne & HVt & HfM & Hz & ->).
  apply lookup_insert_ne. intros ->. apply Hno. by exists V, M.
Qed.

Lemma rate_step_assign (d : string) (acc out : gmap string Entry.t) (e : Element)
    (c : string) (V : float) (M : Z) :
  rate_step d acc e = Ok out →
  publishes e c V M → c ≠ "" → Py.bool_float V = true →
  ∃ fM, Py.float_of_int M = Ok fM ∧ PrimFloat.eqb fM 0 = false
        ∧ out = <[c := Entry.mk (V / fM) d]> acc.
Proof.
  intros (V' & M' & HV' & HM' & Hout)%rate_step_ok (Hc & HV & HM) Hne HVt.
  rewrite HV in HV'. rewrite HM in HM'. injection HV' as <-. injection HM' as <-.
  rewrite Hc, HVt in Hout. destruct c; [done|]. simpl in Hout.
  destruct Hout as (c' & fM & [= <-] & _ & _ & HfM & Hz & ->). eauto.
Qed.

Lemma rate_step_zero (d : string) (acc : gmap string Entry.t) (e : Element)
    (V : float) (M : Z) :
  text e ≫= py_float = Some V →
  py_int (default "1" (attrib e !! "multiplier")) = Some M →
  Py.bool_float V = false →
  rate_step d acc e = Ok acc.
Proof.
  intros HV HM Hz. unfold rate_step. rewrite HM. simpl.
  destruct (text e) as [s|]; [|done]. simpl in HV. rewrite HV. simpl.
  by rewrite Hz, andb_false_r.
Qed.

Lemma rate_loop_app (d : string) (acc : gmap string Entry.t) (l1 l2 : list Element) :
  rate_loop d acc (l1 ++ l2)
  = (acc' <-? rate_loop d acc l1; rate_loop d acc' l2).
Proof.
  revert acc. induction l1 as [|e l1 IH]; intros acc; simpl; [done|].
  destruct (rate_step d acc e); simpl; [apply IH|done].
Qed.

Lemma rate_loop_skip (d : string) (l : list Element) (acc out : gmap string Entry.t)
    (c : string) :
  rate_loop d acc l = Ok out → (∀ e, e ∈ l → ¬ assigns c e) → out !! c = acc !! c.
Proof.
  revert acc. induction l as [|e l IH]; intros acc; simpl.
  { by intros [= ->]. }
  destruct (rate_step d acc e) as [acc'|] eqn:Hstep; [|done]. simpl.
  intros Hloop Hno. rewrite (IH acc') by (auto; intros; apply Hno; by right).
  eapply rate_step_skip; [done|]. apply Hno. by left.
Qed.

Lemma rate_loop_last (d : string) (pre post : list Element) (e : Element)
    (acc out : gmap string Entry.t) (c : string) (V : float) (M : Z) :
  rate_loop d acc (pre ++ e :: post) = Ok out →
  publishes e c V M → c ≠ "" → Py.bool_float V = true →
  (∀ e', e' ∈ post → ¬ assigns c e') →
  ∃ fM, Py.float_of_int M = Ok fM ∧ PrimFloat.eqb fM 0 = false
        ∧ out !! c = Some (Entry.mk (V / fM) d).
Proof.
  rewrite rate_loop_app. destruct (rate_loop d acc pre) as [acc1|]; [|done].
  simpl. destruct (rate_step d acc1 e) as [acc2|] eqn:Hstep; [|done]. simpl.
  intros Hpost Hpub Hne HVt Hno.
  destruct (rate_step_assign _ _ _ _ _ _ _ Hstep Hpub Hne HVt) as (fM & HfM & Hz & ->).
  exists fM. split_and!; [done..|].
  rewrite (rate_loop_skip _ _ _ _ _ Hpost Hno). apply lookup_insert_eq.
Qed.

Lemma rate_loop_origin (d : string) (l : list Element) (acc out : gmap string Entry.t)
    (c : string) (entry : Entry.t) :
  rate_loop d acc l = Ok out → out !! c = Some entry →
  acc !! c = Some entry
  ∨ ∃ e V M fM, e ∈ l ∧ publishes e c V M ∧ Py.bool_float V = true
                ∧ Py.float_of_int M = Ok fM ∧ PrimFloat.eqb fM 0 = false
                ∧ entry = Entry.mk (V / fM) d.
Proof.
  revert acc. induction l as [|e l IH]; intros acc; simpl.
  { intros [= ->]. by left. }
  destruct (rate_step d acc e) as [acc'|] eqn:Hstep; [|done]. simpl.
  intros Hloop Hout. destruct (IH _ Hloop Hout) as [Hacc'|Hex].
  - apply rate_step_ok in Hstep as (V & M & HV & HM & Hstep).
    destruct (_ && _); [|subst; by left].
    destruct Hstep as (c' & fM & Hc' & Hne & HVt & HfM & Hz & ->).
    destruct (decide (c' = c)) as [->|Hcc].
    + rewrite lookup_insert_eq in Hacc'. injection Hacc' as <-.
      right. exists e, V, M, fM. split_and!; try done. by left.
    + rewrite lookup_insert_ne in Hacc' by done. by left.
  - right. destruct Hex as (e' & V & M & fM & Hin & Hrest).
    exists e', V, M, fM. split; [by right|done].
Qed.


Lemma fetch_bnr_rates_try_ok (now_ : string) (st : Z) (root cube : Element)
    (data : Bnr.t) :
  fetch_bnr_rates_try now_ (Response st (Some root)) = Ok data →
  find CUBE root = Some cube →
  200 ≤ st ≤ 299
  ∧ Bnr.date data = default now_ (attrib cube !! "date")
  ∧ rate_loop (Bnr.date data) (<["RON" := Entry.mk 1 (Bnr.date data)]> ∅)
      (findall RATE cube) = Ok (Bnr.exchangeRates data).
Proof.
  unfold fetch_bnr_rates_try. intros Hfetch Hcube.
  destruct ((200 <=? st) && (st <=? 299)) eqn:Hst; [|done].
  simpl in Hfetch. rewrite Hcube in Hfetch. simpl in Hfetch.
  destruct (rate_loop _ _ _) as [out|] eqn:Hloop; [|done].
  injection Hfetch as <-. simpl.
  apply andb_true_iff in Hst as [?%Z.leb_le ?%Z.leb_le]. by split_and!.
Qed.

Lemma convert_currency_same (env : Env) (amount : float) (X : string)
    (rates : option (gmap string float)) (w : World) :
  convert_currency env amount X X rates w = (Ok amount, w).
Proof. unfold convert_currency. by rewrite decide_True. Qed.

Lemma convert_currency_supplied (env : Env) (amount : float)
    (from_currency to_currency : string) (rates : gmap string float) (w : World) :
  from_currency ≠ to_currency →
  convert_currency env amount from_currency to_currency (Some rates) w
  = (match rates !! from_currency, rates !! to_currency with
     | Some rate_from, Some rate_to =>
         if PrimFloat.eqb rate_to 0 then Raise ZeroDivisionError
         else Ok (Py.round2 (amount * rate_from / rate_to))
     | _, _ =>
         Raise (ValueError ("Exchange rate not available for " ++ from_currency
                              ++ " or " ++ to_currency))
     end, w).
Proof.
  intros Hne. unfold convert_currency. rewrite decide_False by done.
  unfold bind, ret, raise, lift, pivot. simpl. unfold Py.truediv.
  destruct (rates !! from_currency) as [rf|], (rates !! to_currency) as [rt|];
    try done.
  by destruct (PrimFloat.eqb rt 0).
Qed.

Lemma reads_of_a_stale_day (t : string) (envs : list Env) (w : World) :
  ¬ has_date t (db w) → Forall (stale_answer t) envs →
  fetch_calls (read_all envs w) = (fetch_calls w + length envs)%nat
  ∧ ¬ has_date t (db (read_all envs w)).
Proof.
  revert w. induction envs as [|env envs IH]; intros w Hmiss Hall; simpl.
  { split; [lia|done]. }
  apply Forall_cons in Hall as [[Ht Hans] Hall]. subst t.
  assert (fetch_calls (get_latest_rates env w).2 = S (fetch_calls w)
          ∧ ¬ has_date (today env) (db (get_latest_rates env w).2)) as [Hcalls Hmiss'].
  { destruct (get_latest_rates_miss env w Hmiss)
      as [(data & Hfetch & Hst)|[(data & Hfetch & Hno)|Hfail]].
    - destruct (get_latest_rates_live env w data Hmiss Hfetch Hst) as (tbl & -> & Hl).
      simpl. split; [done|]. intros [c [x Hx]]. rewrite Hl in Hx.
      rewrite Hfetch in Hans. apply before_ne in Hans.
      rewrite decide_False in Hx by done. apply Hmiss. exists c. eauto.
    - rewrite get_latest_rates_fallback by eauto. by destruct (select_latest (db w)).
    - rewrite get_latest_rates_fallback by eauto. by destruct (select_latest (db w)). }
  destruct (IH _ Hmiss' Hall) as [Hcalls' Hno]. split; [lia|done].
Qed.

(** ** Rounding to two decimals, exactly *)

Lemma round_half_even_close (n d : Z) :
  0 < d → - d ≤ 2 * (Py.round_half_even n d * d - n) ≤ d.
Proof.
  intros Hd. unfold Py.round_half_even.
  pose proof (Z.div_mod n d ltac:(lia)) as Hdm.
  pose proof (Z.mod_pos_bound n d Hd) as Hr.
  destruct (Z.compare_spec (2 * (n mod d)) d);
    [destruct (Z.even (n / d))|..]; nia.
Qed.

Lemma round2_exact_close (q : Q) :
  (Qabs (Py.round2_exact q - q) <= 1 # 200)%Q.
Proof.
  apply Qabs_Qle_condition. destruct q as [n d]. unfold Py.round2_exact. simpl.
  pose proof (round_half_even_close (n * 100) (Z.pos d) ltac:(lia)) as Hc.
  set (r := Py.round_half_even (n * 100) (Z.pos d)) in *.
  unfold Qle, Qminus, Qplus, Qopp. simpl. split; nia.
Qed.

Lemma exact_round_trip (a rx ry b back : Q) :
  (0 < rx)%Q → (0 < ry)%Q →
  (Qabs (b - a * rx / ry) <= 1 # 200)%Q →
  (Qabs (back - b * ry / rx) <= 1 # 200)%Q →
  (Qabs (back - a) <= (1 # 200) * (1 + ry / rx))%Q.
Proof.
  intros Hrx Hry Hb Hback.
  apply Qabs_Qle_condition in Hb as [Hb1 Hb2].
  apply Qabs_Qle_condition in Hback as [Hk1 Hk2].
  apply Qabs_Qle_condition.
  assert (0 < ry / rx)%Q as Hk by (apply Qlt_shift_div_l; lra).
  assert (b * ry / rx - a == (b - a * rx / ry) * (ry / rx))%Q as Heq
    by (field; split; lra).
  set (k := (ry / rx)%Q) in *. set (x := (a * rx / ry)%Q) in *.
  set (y := (b * ry / rx)%Q) in *.
  split; nra.
Qed.

Lemma pivot_exact (a rf rt : Q) :
  (0 < rt)%Q → pivot a rf rt = Ok (Py.round2_exact (a * rf / rt)).
Proof.
  intros Hrt. unfold pivot. simpl. unfold Py.truediv_exact.
  destruct (Qeq_bool rt 0) eqn:Hz; [|done].
  apply Qeq_bool_iff in Hz. lra.
Qed.

(** ** The read path: [get_latest_rates] *)

(** C1: when the table holds at least one row and the call reaches the BNR
    client, which fails, [get_latest_rates] does not raise: it returns the
    rows of the maximum date present in the table, tagged "cache-fallback"
    (the stale-cache provenance), under that date, which is not today's;
    the table is left as it was. The maximum is the one of [MAX(date)];
    when every date of the table is a text, as the dates YYYY-MM-DD are,
    it is the greatest of them bytewise, the latest of the calendar. *)
Theorem stale_cache_after_failed_fetch (env : Env) (w : World) :
  has_rows (db w) →
  fetch_invoked env w →
  (fetch_bnr_rates env w).1 = Raise FETCH_FAILED →
  ∃ v rates,
    get_latest_rates env w
    = (Ok (Latest.mk rates v "cache-fallback"), mkWorld (db w) (S (fetch_calls w)))
    ∧ is_max_date (db w) v
    ∧ snapshot_of (db w) v rates
    ∧ v ≠ numeric_affinity (today env)
    ∧ ((∀ c' v', is_Some (db w !! (c', v')) → ∃ d', v' = TEXT d') →
       ∃ d, v = TEXT d
            ∧ ∀ c' d', is_Some (db w !! (c', TEXT d')) → String.leb d' d = true).
Proof.
  intros [k [x Hk]] Hmiss%fetch_invoked_iff Hfail%fetch_bnr_rates_fails.
  rewrite get_latest_rates_fallback by eauto.
  pose proof (select_latest_spec (db w)) as Hsel.
  destruct (select_latest (db w)) as [|row0 l] eqn:Hs.
  { rewrite Hsel in Hk. by rewrite lookup_empty in Hk. }
  destruct Hsel as [Hmax Heq].
  exists (Row.date row0), (dict_of_rows (row0 :: l)). split_and!; [done..| | |].
  - intros c. rewrite Heq. apply dict_of_rows_dated.
  - intros Heq'. apply Hmiss. unfold has_date. rewrite <- Heq'. apply Hmax.
  - intros Htexts. destruct Hmax as [[c0 Hc0] Hmax].
    destruct (Htexts _ _ Hc0) as [d Hd]. exists d. split; [done|].
    intros c' d' Hc'. specialize (Hmax _ _ Hc'). by rewrite Hd in Hmax.
Qed.

(** C2, amended: the only exception [get_latest_rates] lets out is "No
    exchange rates available"; it never lets out the failure of the BNR
    client, nor the [IntegrityError] of a save; and it raises exactly when
    the table is empty and either the fetch fails or the fetched snapshot
    cannot be stored, one of its rates being a nan. *)
Theorem only_no_rates_available_is_raised (env : Env) (w : World) :
  (∀ e, (get_latest_rates env w).1 = Raise e → e = NO_RATES)
  ∧ (get_latest_rates env w).1 ≠ Raise FETCH_FAILED
  ∧ (get_latest_rates env w).1 ≠ Raise IntegrityError
  ∧ ((get_latest_rates env w).1 = Raise NO_RATES
     ↔ db w = ∅
       ∧ ((fetch_bnr_rates env w).1 = Raise FETCH_FAILED
          ∨ ∃ data, (fetch_bnr_rates env w).1 = Ok data
                    ∧ ¬ storable (Bnr.exchangeRates data))).
Proof.
  pose proof (get_latest_rates_raises env w) as Hinv.
  split_and!.
  - intros e He. by apply Hinv.
  - intros He. by apply Hinv in He as [[=] _].
  - intros He. by apply Hinv in He as [[=] _].
  - rewrite fetch_bnr_rates_fails. split.
    + intros He. apply Hinv in He as (_ & Hempty & [Hfail|(data & Hfetch & Hno)]).
      * split; [done|by left].
      * split; [done|]. right. exists data. by rewrite fetch_bnr_rates_returns.
    + intros [Hempty Hwhy].
      rewrite get_latest_rates_fallback.
      * rewrite Hempty. by vm_compute.
      * rewrite Hempty. apply no_date_in_empty.
      * destruct Hwhy as [Hfail|(data & Hfetch%fetch_bnr_rates_returns & Hno)]; eauto.
Qed.

(** C3: when the table holds a row dated today, [get_latest_rates] returns
    the rows of today, tagged "cache", under today's date, and leaves the
    world as it was: the table is untouched and the count of calls to the
    BNR client does not move. *)
Theorem cache_hit_skips_the_fetch (env : Env) (w : World) :
  has_date (today env) (db w) →
  ∃ rates,
    get_latest_rates env w = (Ok (Latest.mk rates (TEXT (today env)) "cache"), w)
    ∧ snapshot_of (db w) (numeric_affinity (today env)) rates.
Proof.
  intros Hd. eexists. split; [by apply get_latest_rates_hit|].
  intros c. apply dict_of_select_by_date.
Qed.

(** C10: after a miss and a successful fetch of a document whose Cube
    carries the date [d], the client has been invoked once. On the live
    path, taken when the snapshot can be stored, the result is tagged
    "bnr" and dated [d], and the rates are stored under [d], as the column
    holds them: no row of another date changes. When the snapshot cannot
    be stored the table is left as it was and the result, if any, is the
    fallback. Either way, when [d] is before today, the next read of the
    same day invokes the client again, and so does every read of a run of
    reads of that day that each meet a failing BNR or a document dated
    before today; no row dated today appears. *)
Theorem live_path_keeps_the_document_date (env : Env) (w : World) (st : Z)
    (root cube : Element) (d : string) (data : Bnr.t) :
  ¬ has_date (today env) (db w) →
  bnr env = Response st (Some root) →
  find CUBE root = Some cube →
  attrib cube !! "date" = Some d →
  fetch_bnr_rates_try (now env) (bnr env) = Ok data →
  ∃ r w',
    get_latest_rates env w = (r, w')
    ∧ fetch_calls w' = S (fetch_calls w)
    ∧ (storable (Bnr.exchangeRates data) →
       r = Ok (Latest.mk (Entry.rate <$> Bnr.exchangeRates data) (TEXT d) "bnr")
       ∧ (∀ c entry, Bnr.exchangeRates data !! c = Some entry →
                     db w' !! (c, numeric_affinity d)
                     = Some (read_back (Entry.rate entry)))
       ∧ (∀ c v, v ≠ numeric_affinity d → db w' !! (c, v) = db w !! (c, v)))
    ∧ (¬ storable (Bnr.exchangeRates data) →
       db w' = db w ∧ ∀ l, r = Ok l → Latest.source l = "cache-fallback")
    ∧ (before d (today env) →
       (∀ env', today env' = today env → fetch_invoked env' w')
       ∧ ∀ envs, Forall (stale_answer (today env)) envs →
                 fetch_calls (read_all envs w') = (fetch_calls w' + length envs)%nat
                 ∧ ¬ has_date (today env) (db (read_all envs w'))).
Proof.
  intros Hmiss Hbnr Hcube Hdate Hfetch.
  assert (Bnr.date data = d) as Hd.
  { rewrite Hbnr in Hfetch.
    destruct (fetch_bnr_rates_try_ok _ _ _ _ _ Hfetch Hcube) as (_ & Hd & _).
    by rewrite Hdate in Hd. }
  assert (∀ w', fetch_calls w' = S (fetch_calls w) →
                ¬ has_date (today env) (db w') →
                (∀ env', today env' = today env → fetch_invoked env' w')
                ∧ ∀ envs, Forall (stale_answer (today env)) envs →
                          fetch_calls (read_all envs w')
                          = (fetch_calls w' + length envs)%nat
                          ∧ ¬ has_date (today env) (db (read_all envs w'))) as Hnext.
  { intros w' _ Hmiss'. split.
    - intros env' Htoday. apply fetch_invoked_iff. by rewrite Htoday.
    - intros envs Hall. by apply reads_of_a_stale_day. }
  destruct (storable_cases (Bnr.exchangeRates data)) as [Hst|Hno].
  - destruct (get_latest_rates_live env w data Hmiss Hfetch Hst) as (tbl & -> & Hl).
    rewrite Hd in *. eexists _, _. split; [done|]. simpl.
    split_and!; [done| |done|].
    + intros _. split_and!; [done| |].
      * intros c entry Hc. by rewrite Hl, decide_True, Hc.
      * intros c v Hne. by rewrite Hl, decide_False.
    + intros Hlt%before_ne. apply Hnext; [done|]. simpl.
      intros [c [x Hx]]. rewrite Hl, decide_False in Hx by done.
      apply Hmiss. exists c. eauto.
  - rewrite get_latest_rates_fallback by eauto.
    destruct (select_latest (db w)) as [|row0 rest].
    + eexists _, _. split; [done|]. simpl. split_and!; [done|done| |].
      * intros _. by split.
      * intros _. by apply Hnext.
    + eexists _, _. split; [done|]. simpl. split_and!; [done|done| |].
      * intros _. split; [done|]. by intros l [= <-].
      * intros _. by apply Hnext.
Qed.

(** ** The BNR client: [fetch_bnr_rates] *)


(** C5, amended: in the snapshot of a successful fetch, a Rate entry with a
    non-empty currency code and a nonzero value [V], not followed by
    another such entry for the same code, gives its currency the rate
    [V / float(M)], with [M] its multiplier, 1 when the attribute is
    absent; and RON has the rate 1.0 when no entry assigns RON. *)
Theorem snapshot_rates_are_normalized (now_ : string) (st : Z)
    (root cube : Element) (data : Bnr.t) :
  fetch_bnr_rates_try now_ (Response st (Some root)) = Ok data →
  find CUBE root = Some cube →
  (∀ pre e post c V M,
      findall RATE cube = pre ++ e :: post →
      publishes e c V M → c ≠ "" → Py.bool_float V = true →
      (∀ e', e' ∈ post → ¬ assigns c e') →
      (attrib e !! "multiplier" = None → M = 1)
      ∧ ∃ fM, Py.float_of_int M = Ok fM
              ∧ Entry.rate <$> Bnr.exchangeRates data !! c = Some (V / fM)%float)
  ∧ ((∀ e, e ∈ findall RATE cube → ¬ assigns "RON" e) →
     Entry.rate <$> Bnr.exchangeRates data !! "RON" = Some 1%float).
Proof.
  intros Hfetch Hcube.
  destruct (fetch_bnr_rates_try_ok _ _ _ _ _ Hfetch Hcube) as (_ & _ & Hloop).
  split.
  - intros pre e post c V M Hl Hpub Hne HVt Hno. split.
    + intros Habs. destruct Hpub as (_ & _ & HM).
      rewrite Habs in HM. simpl in HM. rewrite py_int_1 in HM. by injection HM.
    + rewrite Hl in Hloop.
      destruct (rate_loop_last _ _ _ _ _ _ _ _ _ Hloop Hpub Hne HVt Hno)
        as (fM & HfM & _ & Hout).
      exists fM. by rewrite Hout.
  - intros Hno. rewrite (rate_loop_skip _ _ _ _ _ Hloop Hno).
    by rewrite lookup_insert_eq.
Qed.

(** C9, amended: every rate of the snapshot of a successful fetch is the
    synthesized 1.0 of RON or the quotient [V / float(M)] of a Rate entry
    whose value [V] and multiplier are both nonzero; a currency that no
    entry assigns is absent; an entry whose value is 0.0 is skipped and
    raises nothing. The quotient itself may be 0.0, and [convert_currency]
    divides by zero on a fetched map only for such a currency. *)
Theorem snapshot_rates_have_nonzero_sources (now_ : string) (st : Z)
    (root cube : Element) (data : Bnr.t) :
  fetch_bnr_rates_try now_ (Response st (Some root)) = Ok data →
  find CUBE root = Some cube →
  (∀ c entry,
      Bnr.exchangeRates data !! c = Some entry →
      (c = "RON" ∧ Entry.rate entry = 1%float)
      ∨ ∃ e V M fM,
          e ∈ findall RATE cube ∧ publishes e c V M
          ∧ Py.bool_float V = true
          ∧ Py.float_of_int M = Ok fM ∧ PrimFloat.eqb fM 0 = false
          ∧ Entry.rate entry = (V / fM)%float)
  ∧ (∀ c, c ≠ "RON" → (∀ e, e ∈ findall RATE cube → ¬ assigns c e) →
          Bnr.exchangeRates data !! c = None)
  ∧ (∀ d acc e V M,
        text e ≫= py_float = Some V →
        py_int (default "1" (attrib e !! "multiplier")) = Some M →
        Py.bool_float V = false →
        rate_step d acc e = Ok acc)
  ∧ (∀ env amount from_currency to_currency w,
        (convert_currency env amount from_currency to_currency
           (Some (Entry.rate <$> Bnr.exchangeRates data)) w).1
        = Raise ZeroDivisionError →
        ∃ e V M fM,
          e ∈ findall RATE cube ∧ publishes e to_currency V M
          ∧ Py.bool_float V = true
          ∧ Py.float_of_int M = Ok fM ∧ PrimFloat.eqb fM 0 = false
          ∧ PrimFloat.eqb (V / fM) 0 = true).
Proof.
  intros Hfetch Hcube.
  destruct (fetch_bnr_rates_try_ok _ _ _ _ _ Hfetch Hcube) as (_ & _ & Hloop).
  assert (∀ c entry,
      Bnr.exchangeRates data !! c = Some entry →
      (c = "RON" ∧ Entry.rate entry = 1%float)
      ∨ ∃ e V M fM,
          e ∈ findall RATE cube ∧ publishes e c V M
          ∧ Py.bool_float V = true
          ∧ Py.float_of_int M = Ok fM ∧ PrimFloat.eqb fM 0 = false
          ∧ Entry.rate entry = (V / fM)%float) as Hsrc.
  { intros c entry Hc.
    destruct (rate_loop_origin _ _ _ _ _ _ Hloop Hc) as [Hinit|Hex].
    - left. apply lookup_insert_Some in Hinit as [[<- <-]|[_ Hempty]]; [done|].
      by rewrite lookup_empty in Hempty.
    - right. destruct Hex as (e & V & M & fM & ? & ? & ? & ? & ? & ->).
      by exists e, V, M, fM. }
  split_and!; [done| | |].
  - intros c Hne Hno. rewrite (rate_loop_skip _ _ _ _ _ Hloop Hno).
    by rewrite lookup_insert_ne.
  - intros d acc e V M. apply rate_step_zero.
  - intros env amount f t w.
    destruct (decide (f = t)) as [->|Hne].
    { by rewrite convert_currency_same. }
    rewrite convert_currency_supplied by done. simpl. rewrite !lookup_fmap.
    destruct (Bnr.exchangeRates data !! f) as [ef|]; [|done].
    destruct (Bnr.exchangeRates data !! t) as [et|] eqn:Ht; [|done]. simpl.
    destruct (PrimFloat.eqb (Entry.rate et) 0) eqn:Hz; [|done]. intros _.
    destruct (Hsrc _ _ Ht) as [[_ Hone]|(e & V & M & fM & ? & ? & ? & ? & ? & Hq)].
    + rewrite Hone in Hz. by vm_compute in Hz.
    + exists e, V, M, fM. rewrite Hq in Hz. by split_and!.
Qed.

(** ** The converter: [convert_currency] *)

(** C7: converting between a currency and itself returns the amount as it
    is, whatever the rates argument (a map without the currency, or none
    at all); nothing is looked up and the world is left as it was. *)
Theorem same_currency_is_identity (env : Env) (amount : float) (X : string)
    (rates : option (gmap string float)) (w : World) :
  convert_currency env amount X X rates w = (Ok amount, w).
Proof. unfold convert_currency. by rewrite decide_True. Qed.

(** C4, amended: for distinct currency codes and a rates map supplied by
    the caller, [convert_currency] raises its [ValueError] when either
    code is absent, and returns [round(amount * rates[from] / rates[to], 2)]
    when both are present and [rates[to]] is not zero; with
    [{RON: 1.0, EUR: 5.0}], 100 RON are 20.0 EUR and 20 EUR are 100.0 RON. *)
Theorem convert_through_the_base (env : Env) (amount : float)
    (from_currency to_currency : string) (rates : gmap string float) (w : World) :
  from_currency ≠ to_currency →
  (rates !! from_currency = None ∨ rates !! to_currency = None →
   convert_currency env amount from_currency to_currency (Some rates) w
   = (Raise (ValueError ("Exchange rate not available for " ++ from_currency
                           ++ " or " ++ to_currency)), w))
  ∧ (∀ rate_from rate_to,
       rates !! from_currency = Some rate_from →
       rates !! to_currency = Some rate_to →
       PrimFloat.eqb rate_to 0 = false →
       convert_currency env amount from_currency to_currency (Some rates) w
       = (Ok (Py.round2 (amount * rate_from / rate_to)), w))
  ∧ convert_currency env 100 "RON" "EUR" (Some rates_ron_eur) w = (Ok 20%float, w)
  ∧ convert_currency env 20 "EUR" "RON" (Some rates_ron_eur) w = (Ok 100%float, w).
Proof.
  intros Hne. split_and!.
  - intros Habs. rewrite convert_currency_supplied by done.
    destruct Habs as [-> | ->]; [done|]. by destruct (rates !! from_currency).
  - intros rf rt Hf Ht Hz. rewrite convert_currency_supplied by done.
    by rewrite Hf, Ht, Hz.
  - by rewrite convert_currency_supplied.
  - by rewrite convert_currency_supplied.
Qed.

(** C6, amended: for two currencies with nonzero rates the round trip
    X to Y to X does not fail; it returns the amount itself when X is Y,
    and otherwise rounds twice:
    [round(round(amount * r[X] / r[Y], 2) * r[Y] / r[X], 2)]. Computed on
    exact fractions with positive rates, the result is within
    [0.005 * (1 + r[Y] / r[X])] of the amount, hence within 0.01 when
    [r[Y] <= r[X]]. *)
Theorem round_trip_rounds_twice (env : Env) (amount : float) (X Y : string)
    (rates : gmap string float) (rate_X rate_Y : float) (w : World) :
  rates !! X = Some rate_X → rates !! Y = Some rate_Y →
  PrimFloat.eqb rate_X 0 = false → PrimFloat.eqb rate_Y 0 = false →
  (∃ there back,
     convert_currency env amount X Y (Some rates) w = (Ok there, w)
     ∧ convert_currency env there Y X (Some rates) w = (Ok back, w)
     ∧ (X = Y → back = amount)
     ∧ (X ≠ Y → there = Py.round2 (amount * rate_X / rate_Y)
                ∧ back = Py.round2 (there * rate_Y / rate_X)))
  ∧ (∀ a rx ry : Q,
       (0 < rx)%Q → (0 < ry)%Q →
       ∃ there back,
         pivot a rx ry = Ok there ∧ pivot there ry rx = Ok back
         ∧ (Qabs (back - a) <= (1 # 200) * (1 + ry / rx))%Q
         ∧ ((ry <= rx)%Q → (Qabs (back - a) <= 1 # 100)%Q)).
Proof.
  intros HX HY HzX HzY. split.
  - destruct (decide (X = Y)) as [->|Hne].
    + exists amount, amount. rewrite !convert_currency_same. by split_and!.
    + exists (Py.round2 (amount * rate_X / rate_Y)),
             (Py.round2 (Py.round2 (amount * rate_X / rate_Y) * rate_Y / rate_X)).
      rewrite !convert_currency_supplied by done.
      rewrite HX, HY, HzX, HzY. by split_and!.
  - intros a rx ry Hrx Hry.
    exists (Py.round2_exact (a * rx / ry)),
           (Py.round2_exact (Py.round2_exact (a * rx / ry) * ry / rx)).
    rewrite !pivot_exact by done.
    assert (Qabs (Py.round2_exact (Py.round2_exact (a * rx / ry) * ry / rx) - a)
            <= (1 # 200) * (1 + ry / rx))%Q as Hbound
      by (apply (exact_round_trip a rx ry (Py.round2_exact (a * rx / ry)));
          [done|done|apply round2_exact_close..]).
    split_and!; [done|done|done|].
    intros Hle. eapply Qle_trans; [apply Hbound|].
    assert (ry / rx <= 1)%Q as Hk by (apply Qle_shift_div_r; lra).
    lra.
Qed.

End Properties.

(** * More of the service and its callers *)

Section Coverage.
Context `{PyBuiltins} `{Sqlite}.

(** ** Helpers *)

Lemma rate_step_invariant (d : string) (acc out : gmap string Entry.t) (e : Element) :
  rate_step d acc e = Ok out →
  (∀ c x, acc !! c = Some x → Entry.date x = d ∧ c ≠ "") →
  (∀ c, is_Some (acc !! c) → is_Some (out !! c))
  ∧ (∀ c x, out !! c = Some x → Entry.date x = d ∧ c ≠ "").
Proof.
  intros (V & M & _ & _ & Hout)%rate_step_ok Hacc.
  destruct (_ && _); [|by subst].
  destruct Hout as (c' & fM & _ & Hne & _ & _ & _ & ->). split.
  - intros c Hc. destruct (decide (c' = c)) as [->|Hcc].
    + rewrite lookup_insert_eq. eauto.
    + by rewrite lookup_insert_ne.
  - intros c x. destruct (decide (c' = c)) as [->|Hcc].
    + rewrite lookup_insert_eq. by intros [= <-].
    + rewrite lookup_insert_ne by done. apply Hacc.
Qed.

Lemma rate_loop_invariant (d : string) (l : list Element) (acc out : gmap string Entry.t) :
  rate_loop d acc l = Ok out →
  (∀ c x, acc !! c = Some x → Entry.date x = d ∧ c ≠ "") →
  (∀ c, is_Some (acc !! c) → is_Some (out !! c))
  ∧ (∀ c x, out !! c = Some x → Entry.date x = d ∧ c ≠ "").
Proof.
  revert acc. induction l as [|e l IH]; intros acc; simpl.
  { intros [= ->]. auto. }
  destruct (rate_step d acc e) as [acc'|] eqn:Hstep; [|done]. simpl.
  intros Hloop Hacc.
  destruct (rate_step_invariant _ _ _ _ Hstep Hacc) as [Hkeep Hinv].
  destruct (IH _ Hloop Hinv) as [Hkeep' Hinv']. split; auto.
Qed.

Lemma fetch_bnr_rates_try_shape (now_ : string) (answer : http_outcome) (data : Bnr.t) :
  fetch_bnr_rates_try now_ answer = Ok data →
  ∃ st root cube,
    answer = Response st (Some root) ∧ find CUBE root = Some cube.
Proof.
  unfold fetch_bnr_rates_try. destruct answer as [|st [root|]]; simpl; [done| |].
  - destruct (_ && _); [|done]. simpl.
    destruct (find CUBE root) as [cube|] eqn:Hcube; [|done]. eauto.
  - by destruct (_ && _).
Qed.

Lemma fetched_snapshot_shape (now_ : string) (answer : http_outcome) (data : Bnr.t) :
  fetch_bnr_rates_try now_ answer = Ok data →
  is_Some (Bnr.exchangeRates data !! "RON")
  ∧ ∀ c x, Bnr.exchangeRates data !! c = Some x →
           Entry.date x = Bnr.date data ∧ c ≠ "".
Proof.
  intros Hfetch.
  destruct (fetch_bnr_rates_try_shape _ _ _ Hfetch) as (st & root & cube & -> & Hcube).
  destruct (fetch_bnr_rates_try_ok _ _ _ _ _ Hfetch Hcube) as (_ & _ & Hloop).
  apply rate_loop_invariant in Hloop as [Hkeep Hinv].
  - split; [|done]. apply Hkeep. rewrite lookup_insert_eq. eauto.
  - intros c x [[<- <-]|[_ Hempty]]%lookup_insert_Some; [done|].
    by rewrite lookup_empty in Hempty.
Qed.

Lemma update_exchange_rates_unfold (env : Env) (w : World) :
  update_exchange_rates env w
  = match fetch_bnr_rates_try (now env) (bnr env) with
    | Ok data =>
        match save_rates_to_database (Bnr.exchangeRates data) (Bnr.date data)
                (mkWorld (db w) (S (fetch_calls w))) with
        | (Ok _, w') => (Ok true, w')
        | (Raise _, w') => (Ok false, w')
        end
    | Raise _ => (Ok false, mkWorld (db w) (S (fetch_calls w)))
    end.
Proof.
  unfold update_exchange_rates, try_except, bind, fetch_bnr_rates.
  destruct (fetch_bnr_rates_try _ _); [|done]. simpl.
  by destruct (save_rates_to_database _ _ _) as [[[]|e] w'].
Qed.

(** The refresh that stores its snapshot. *)
Lemma update_exchange_rates_stored (env : Env) (w : World) (data : Bnr.t) :
  fetch_bnr_rates_try (now env) (bnr env) = Ok data →
  storable (Bnr.exchangeRates data) →
  ∃ tbl,
    update_exchange_rates env w = (Ok true, mkWorld tbl (S (fetch_calls w)))
    ∧ ∀ c v, tbl !! (c, v)
             = if decide (v = numeric_affinity (Bnr.date data)) then
                 match Bnr.exchangeRates data !! c with
                 | Some e => Some (read_back (Entry.rate e))
                 | None => db w !! (c, v)
                 end
               else db w !! (c, v).
Proof.
  intros Hfetch Hst. rewrite update_exchange_rates_unfold, Hfetch.
  destruct (save_ok (Bnr.exchangeRates data) (Bnr.date data)
              (mkWorld (db w) (S (fetch_calls w))) Hst) as (tbl & -> & Hl).
  by exists tbl.
Qed.

(** The refresh that stores nothing. *)
Lemma update_exchange_rates_refused (env : Env) (w : World) :
  is_raise (fetch_bnr_rates_try (now env) (bnr env)) = true
  ∨ (∃ data, fetch_bnr_rates_try (now env) (bnr env) = Ok data
             ∧ ¬ storable (Bnr.exchangeRates data)) →
  update_exchange_rates env w = (Ok false, mkWorld (db w) (S (fetch_calls w))).
Proof.
  intros Hwhy. rewrite update_exchange_rates_unfold.
  destruct (fetch_bnr_rates_try _ _) as [data|e]; [|done].
  destruct Hwhy as [?|(data' & [= <-] & Hno)]; [done|].
  by rewrite save_raises.
Qed.

Lemma update_exchange_rates_true (env : Env) (w : World) :
  (update_exchange_rates env w).1 = Ok true →
  ∃ data, fetch_bnr_rates_try (now env) (bnr env) = Ok data
          ∧ storable (Bnr.exchangeRates data).
Proof.
  destruct (get_latest_rates_miss env (mkWorld ∅ 0) (no_date_in_empty _))
    as [(data & Hfetch & Hst)|[(data & Hfetch & Hno)|Hfail]].
  - eauto.
  - by rewrite update_exchange_rates_refused by eauto.
  - by rewrite update_exchange_rates_refused by eauto.
Qed.

Lemma get_latest_rates_keeps_rows (env : Env) (w : World) (k : string * value) :
  is_Some (db w !! k) → is_Some (db (get_latest_rates env w).2 !! k).
Proof.
  intros Hk. destruct (has_date_cases (today env) (db w)) as [Hd|Hd].
  { by rewrite get_latest_rates_hit. }
  destruct (get_latest_rates_miss env w Hd)
    as [(data & Hfetch & Hst)|[(data & Hfetch & Hno)|Hfail]].
  - destruct (get_latest_rates_live env w data Hd Hfetch Hst) as (tbl & -> & Hl).
    simpl. destruct k as [c v]. rewrite Hl. case_decide; [|done].
    by destruct (Bnr.exchangeRates data !! c).
  - rewrite get_latest_rates_fallback by eauto. by destruct (select_latest (db w)).
  - rewrite get_latest_rates_fallback by eauto. by destruct (select_latest (db w)).
Qed.

Lemma get_latest_rates_with_rows (env : Env) (w : World) :
  has_rows (db w) → is_raise (get_latest_rates env w).1 = false.
Proof.
  intros [k [x Hk]].
  destruct (get_latest_rates env w).1 as [l|e] eqn:Hr; [done|].
  apply get_latest_rates_raises in Hr as (_ & Hempty & _).
  rewrite Hempty in Hk. by rewrite lookup_empty in Hk.
Qed.

Lemma read_all_keeps_rows (envs : list Env) (w : World) :
  has_rows (db w) → has_rows (db (read_all envs w)).
Proof.
  revert w. induction envs as [|env envs IH]; intros w Hw; simpl; [done|].
  apply IH. destruct Hw as [k Hk]. exists k. by apply get_latest_rates_keeps_rows.
Qed.

Lemma get_latest_rates_nonempty (env : Env) (w : World) (l : Latest.t) :
  (get_latest_rates env w).1 = Ok l → Latest.rates l ≠ ∅.
Proof.
  destruct (has_date_cases (today env) (db w)) as [Hd|Hd].
  { rewrite get_latest_rates_hit by done. simpl. intros [= <-]. simpl.
    apply dict_of_rows_nonempty. by apply has_date_select. }
  assert (match select_latest (db w) with
          | [] => (Raise NO_RATES, mkWorld (db w) (S (fetch_calls w)))
          | row0 :: _ =>
              (Ok (Latest.mk (dict_of_rows (select_latest (db w)))
                             (Row.date row0) "cache-fallback"),
               mkWorld (db w) (S (fetch_calls w)))
          end.1 = Ok l → Latest.rates l ≠ ∅) as Hfallback.
  { destruct (select_latest (db w)) as [|row0 rest] eqn:Hs; [done|].
    simpl. intros [= <-]. simpl. by apply dict_of_rows_nonempty. }
  destruct (get_latest_rates_miss env w Hd)
    as [(data & Hfetch & Hst)|[(data & Hfetch & Hno)|Hfail]].
  - destruct (get_latest_rates_live env w data Hd Hfetch Hst) as (tbl & -> & Hl).
    simpl. intros [= <-]. simpl.
    destruct (fetched_snapshot_shape _ _ _ Hfetch) as [[x Hron] _].
    intros Hempty. apply (f_equal (.!! "RON")) in Hempty.
    by rewrite lookup_fmap, Hron, lookup_empty in Hempty.
  - by rewrite get_latest_rates_fallback by eauto.
  - by rewrite get_latest_rates_fallback by eauto.
Qed.

Lemma update_leaves_rows (env : Env) (w : World) :
  (update_exchange_rates env w).1 = Ok true →
  has_rows (db (update_exchange_rates env w).2).
Proof.
  intros (data & Hfetch & Hst)%update_exchange_rates_true.
  destruct (update_exchange_rates_stored env w data Hfetch Hst) as (tbl & -> & Hl).
  destruct (fetched_snapshot_shape _ _ _ Hfetch) as [[x Hron] _].
  exists ("RON", numeric_affinity (Bnr.date data)). simpl.
  rewrite Hl, decide_True by done. rewrite Hron. eauto.
Qed.

(** ** The refresh and the table *)

(** X1: [update_exchange_rates] never raises and invokes the BNR client
    once. It answers [True] exactly when the fetch succeeds and the
    snapshot can be stored (no rate is a nan); then every rate of the
    snapshot is stored under the date of the document, as the column holds
    them, and no row of another date changes. It answers [False] otherwise
    and leaves the table as it was. *)
Theorem update_answers_true_when_stored (env : Env) (w : World) :
  ∃ ok w',
    update_exchange_rates env w = (Ok ok, w')
    ∧ fetch_calls w' = S (fetch_calls w)
    ∧ (ok = true
       ↔ ∃ data, (fetch_bnr_rates env w).1 = Ok data
                 ∧ storable (Bnr.exchangeRates data))
    ∧ (ok = false → db w' = db w)
    ∧ (ok = true →
       ∃ data,
         (fetch_bnr_rates env w).1 = Ok data
         ∧ (∀ c e, Bnr.exchangeRates data !! c = Some e →
                   db w' !! (c, numeric_affinity (Bnr.date data))
                   = Some (read_back (Entry.rate e)))
         ∧ (∀ c v, v ≠ numeric_affinity (Bnr.date data) →
                   db w' !! (c, v) = db w !! (c, v))).
Proof.
  destruct (get_latest_rates_miss env (mkWorld ∅ 0) (no_date_in_empty _))
    as [(data & Hfetch & Hst)|Hwhy].
  - destruct (update_exchange_rates_stored env w data Hfetch Hst) as (tbl & -> & Hl).
    eexists _, _. split; [done|]. simpl. split_and!; [done| |done|].
    + split; [|done]. intros _. exists data. by rewrite fetch_bnr_rates_returns.
    + intros _. exists data. rewrite fetch_bnr_rates_returns. split_and!; [done| |].
      * intros c e Hc. by rewrite Hl, decide_True, Hc.
      * intros c v Hne. by rewrite Hl, decide_False.
  - assert (is_raise (fetch_bnr_rates_try (now env) (bnr env)) = true
            ∨ (∃ data, fetch_bnr_rates_try (now env) (bnr env) = Ok data
                       ∧ ¬ storable (Bnr.exchangeRates data))) as Hwhy'
      by (destruct Hwhy; auto).
    rewrite update_exchange_rates_refused by done.
    eexists _, _. split; [done|]. simpl. split_and!; [done| |done|done].
    split; [done|]. intros (data & Hfetch%fetch_bnr_rates_returns & Hst). exfalso.
    destruct Hwhy' as [Hfail|(data' & Hfetch' & Hno)].
    + by rewrite Hfetch in Hfail.
    + rewrite Hfetch in Hfetch'. by injection Hfetch' as <-.
Qed.

(** X2: when no rate of [rates] is a nan, [save_rates_to_database rates d]
    succeeds and [get_cached_rates d] then reads back every saved rate as
    the column holds it: as it was when it is not a zero, as 0.0 when it
    is 0.0 or -0.0; a currency that was not saved keeps the rate it had
    under the date; a text that the column reads as the same date selects
    the same rows; rows of other dates are untouched. When a rate is a
    nan, the save raises [IntegrityError] and nothing is written. *)
Theorem saved_rates_are_read_back (rates : gmap string Entry.t) (d : string) (w : World) :
  (storable rates →
   ∃ cached w',
     save_rates_to_database rates d w = (Ok tt, w')
     ∧ get_cached_rates d w' = (Ok cached, w')
     ∧ (∀ c, cached ≫= (.!! c)
             = match rates !! c with
               | Some e => Some (read_back (Entry.rate e))
               | None => db w !! (c, numeric_affinity d)
               end)
     ∧ (∀ c e, rates !! c = Some e → PrimFloat.eqb (Entry.rate e) 0 = false →
               cached ≫= (.!! c) = Some (Entry.rate e))
     ∧ (∀ d', numeric_affinity d' = numeric_affinity d →
              get_cached_rates d' w' = (Ok cached, w'))
     ∧ (∀ c v, v ≠ numeric_affinity d → db w' !! (c, v) = db w !! (c, v)))
  ∧ (¬ storable rates →
     save_rates_to_database rates d w = (Raise IntegrityError, w)).
Proof.
  split; [|apply save_raises]. intros Hst.
  destruct (save_ok rates d w Hst) as (tbl & -> & Hl).
  set (w' := mkWorld tbl (fetch_calls w)).
  assert (∀ c, tbl !! (c, numeric_affinity d)
               = match rates !! c with
                 | Some e => Some (read_back (Entry.rate e))
                 | None => db w !! (c, numeric_affinity d)
                 end) as Hd.
  { intros c. by rewrite Hl, decide_True. }
  assert (∃ cached,
            get_cached_rates d w' = (Ok cached, w')
            ∧ ∀ c, cached ≫= (.!! c) = tbl !! (c, numeric_affinity d))
    as (cached & Hget & Hcached).
  { unfold get_cached_rates, select_by_date. simpl.
    destruct (rows_dated (numeric_affinity d) tbl) as [|r l] eqn:Hs.
    - exists None. split; [done|]. intros c. simpl. symmetry.
      by apply (rows_dated_nil (numeric_affinity d) tbl).
    - exists (Some (dict_of_rows (r :: l))). split; [done|].
      intros c. simpl. rewrite <- Hs. apply dict_of_rows_dated. }
  exists cached, w'. split_and!; [done|done| | | |].
  - intros c. by rewrite Hcached.
  - intros c e Hc Hnz. by rewrite Hcached, Hd, Hc, read_back_nonzero.
  - intros d' Heq. rewrite <- Hget. unfold get_cached_rates, select_by_date.
    by rewrite Heq.
  - intros c v Hne. simpl. by rewrite Hl, decide_False.
Qed.

(** X3: saving is an idempotent replace that never removes a row: saving
    the same rates under the same date a second time changes nothing, and
    a key present before a save is present after it. *)
Theorem saving_twice_changes_nothing (rates : gmap string Entry.t) (d : string)
    (w : World) :
  save_rates_to_database rates d (save_rates_to_database rates d w).2
  = save_rates_to_database rates d w
  ∧ ∀ k, is_Some (db w !! k) → is_Some (db (save_rates_to_database rates d w).2 !! k).
Proof.
  split; [|intros k; apply save_keeps_rows].
  destruct (storable_cases rates) as [Hst|Hno].
  - destruct (save_ok rates d w Hst) as (tbl & -> & Hl). simpl.
    destruct (save_ok rates d (mkWorld tbl (fetch_calls w)) Hst) as (tbl' & -> & Hl').
    simpl. do 2 f_equal. apply map_eq. intros [c v]. rewrite Hl'. simpl.
    rewrite Hl. case_decide; [|done]. by destruct (rates !! c).
  - by rewrite !save_raises.
Qed.

(** X4: the snapshot of a successful fetch always has RON among its keys,
    no key is the empty string, and every entry carries the date of the
    snapshot. *)
Theorem fetched_snapshot_is_dated_and_has_ron (env : Env) (w : World) (data : Bnr.t) :
  (fetch_bnr_rates env w).1 = Ok data →
  is_Some (Bnr.exchangeRates data !! "RON")
  ∧ ∀ c x, Bnr.exchangeRates data !! c = Some x →
           Entry.date x = Bnr.date data ∧ c ≠ "".
Proof.
  unfold fetch_bnr_rates.
  destruct (fetch_bnr_rates_try _ _) as [data'|e] eqn:Hfetch; [|done].
  simpl. intros [= <-]. by apply (fetched_snapshot_shape _ _ _ Hfetch).
Qed.

(** X5: [get_cached_rates d] never raises and never writes; it returns
    [None] exactly when the table has no row dated [d], and otherwise a
    dict that is not empty and holds exactly the rows the table holds
    under [d], read as the column reads it: two texts that the column
    reads as the same date give the same answer. *)
Theorem cached_rates_are_the_rows_of_the_date (d : string) (w : World) :
  ∃ cached,
    get_cached_rates d w = (Ok cached, w)
    ∧ (cached = None ↔ ¬ has_date d (db w))
    ∧ (∀ m, cached = Some m → m ≠ ∅ ∧ snapshot_of (db w) (numeric_affinity d) m)
    ∧ ∀ d', numeric_affinity d' = numeric_affinity d →
            get_cached_rates d' w = (Ok cached, w).
Proof.
  assert (∀ d', numeric_affinity d' = numeric_affinity d →
                get_cached_rates d' w = get_cached_rates d w) as Hsame.
  { intros d' Heq. unfold get_cached_rates, select_by_date. by rewrite Heq. }
  unfold get_cached_rates in *.
  destruct (select_by_date d (db w)) as [|r l] eqn:Hs.
  - exists None. split_and!; [done| |done|done].
    split; [|done]. intros _ Hd%has_date_select. by apply Hd.
  - exists (Some (dict_of_rows (r :: l))). split_and!; [done| | |done].
    + split; [done|]. intros Hno. exfalso. apply Hno, has_date_select. by rewrite Hs.
    + intros m [= <-]. split; [by apply dict_of_rows_nonempty|].
      intros c. rewrite <- Hs. apply dict_of_select_by_date.
Qed.

(** ** Reads *)

(** X6: one call of [get_latest_rates] invokes the BNR client at most
    once, never removes a row, and changes the table only when it returns
    freshly fetched rates (source "bnr"). *)
Theorem read_fetches_at_most_once_and_keeps_rows (env : Env) (w : World) :
  (fetch_calls (get_latest_rates env w).2 = fetch_calls w
   ∨ fetch_calls (get_latest_rates env w).2 = S (fetch_calls w))
  ∧ (∀ k, is_Some (db w !! k) → is_Some (db (get_latest_rates env w).2 !! k))
  ∧ (db (get_latest_rates env w).2 ≠ db w →
     ∃ l, (get_latest_rates env w).1 = Ok l ∧ Latest.source l = "bnr").
Proof.
  split_and!; [| intros k; apply get_latest_rates_keeps_rows |].
  - destruct (has_date_cases (today env) (db w)) as [Hd|Hd].
    + left. by rewrite get_latest_rates_hit.
    + right. by apply fetch_invoked_iff.
  - destruct (has_date_cases (today env) (db w)) as [Hd|Hd].
    { by rewrite get_latest_rates_hit. }
    destruct (get_latest_rates_miss env w Hd)
      as [(data & Hfetch & Hst)|[(data & Hfetch & Hno)|Hfail]].
    + destruct (get_latest_rates_live env w data Hd Hfetch Hst) as (tbl & -> & _).
      simpl. eauto.
    + rewrite get_latest_rates_fallback by eauto. by destruct (select_latest (db w)).
    + rewrite get_latest_rates_fallback by eauto. by destruct (select_latest (db w)).
Qed.

(** X7: every result of [get_latest_rates] holds at least one rate and is
    of one of three kinds: "cache", dated today, with exactly the rows of
    today; "bnr", with RON among its rates; or "cache-fallback", with
    exactly the rows the table holds for the returned date. *)
Theorem every_read_returns_rates (env : Env) (w : World) (l : Latest.t) :
  (get_latest_rates env w).1 = Ok l →
  Latest.rates l ≠ ∅
  ∧ ((Latest.source l = "cache" ∧ Latest.date l = TEXT (today env)
      ∧ snapshot_of (db w) (numeric_affinity (today env)) (Latest.rates l))
     ∨ (Latest.source l = "bnr" ∧ is_Some (Latest.rates l !! "RON"))
     ∨ (Latest.source l = "cache-fallback"
        ∧ snapshot_of (db w) (Latest.date l) (Latest.rates l))).
Proof.
  intros Hl. split; [by apply (get_latest_rates_nonempty env w)|]. revert Hl.
  destruct (has_date_cases (today env) (db w)) as [Hd|Hd].
  { rewrite get_latest_rates_hit by done. simpl. intros [= <-]. simpl.
    left. split_and!; [done..|]. intros c. apply dict_of_select_by_date. }
  assert (match select_latest (db w) with
          | [] => (Raise NO_RATES, mkWorld (db w) (S (fetch_calls w)))
          | row0 :: _ =>
              (Ok (Latest.mk (dict_of_rows (select_latest (db w)))
                             (Row.date row0) "cache-fallback"),
               mkWorld (db w) (S (fetch_calls w)))
          end.1 = Ok l →
          Latest.source l = "cache-fallback"
          ∧ snapshot_of (db w) (Latest.date l) (Latest.rates l)) as Hfallback.
  { pose proof (select_latest_spec (db w)) as Hsel.
    destruct (select_latest (db w)) as [|row0 rest] eqn:Hs; [done|].
    simpl. intros [= <-]. simpl. destruct Hsel as [_ Heq]. split; [done|].
    intros c. rewrite Heq. apply dict_of_rows_dated. }
  destruct (get_latest_rates_miss env w Hd)
    as [(data & Hfetch & Hst)|[(data & Hfetch & Hno)|Hfail]].
  - destruct (get_latest_rates_live env w data Hd Hfetch Hst) as (tbl & -> & _).
    simpl. intros [= <-]. simpl. right. left. split; [done|].
    destruct (fetched_snapshot_shape _ _ _ Hfetch) as [[x Hron] _].
    rewrite lookup_fmap, Hron. simpl. eauto.
  - rewrite get_latest_rates_fallback by eauto. auto.
  - rewrite get_latest_rates_fallback by eauto. auto.
Qed.

(** X8: when a read fetches a document dated today whose snapshot can be
    stored, every later read of that day is served from the table without
    a fetch, dated today, with the source "cache"; the rates are those
    the first read returned, as the column holds them: the very same when
    no rate is a zero, and a rate of -0.0 as 0.0. *)
Theorem live_rates_are_cached_for_the_day (env env' : Env) (w : World) (data : Bnr.t) :
  ¬ has_date (today env) (db w) →
  (fetch_bnr_rates env w).1 = Ok data →
  storable (Bnr.exchangeRates data) →
  Bnr.date data = today env →
  today env' = today env →
  (get_latest_rates env w).1
  = Ok (Latest.mk (Entry.rate <$> Bnr.exchangeRates data) (TEXT (today env)) "bnr")
  ∧ get_latest_rates env' (get_latest_rates env w).2
    = (Ok (Latest.mk (read_back <$> (Entry.rate <$> Bnr.exchangeRates data))
                     (TEXT (today env)) "cache"),
       (get_latest_rates env w).2)
  ∧ ((∀ c e, Bnr.exchangeRates data !! c = Some e →
             PrimFloat.eqb (Entry.rate e) 0 = false) →
     read_back <$> (Entry.rate <$> Bnr.exchangeRates data)
     = Entry.rate <$> Bnr.exchangeRates data).
Proof.
  intros Hmiss Hfetch%fetch_bnr_rates_returns Hst Hdate Htoday.
  destruct (get_latest_rates_live env w data Hmiss Hfetch Hst) as (tbl & -> & Hl).
  rewrite Hdate in *. simpl. split_and!; [done| |].
  - assert (∀ c, tbl !! (c, numeric_affinity (today env))
                 = (read_back <$> (Entry.rate <$> Bnr.exchangeRates data)) !! c)
      as Hrows.
    { intros c. rewrite Hl, decide_True by done. rewrite !lookup_fmap.
      destruct (Bnr.exchangeRates data !! c); [done|]. simpl.
      destruct (db w !! (c, numeric_affinity (today env))) eqn:Hc; [|done].
      exfalso. apply Hmiss. exists c. eauto. }
    rewrite get_latest_rates_hit.
    + rewrite Htoday. simpl. do 3 f_equal. apply map_eq. intros c.
      by rewrite dict_of_select_by_date.
    + rewrite Htoday. exists "RON". simpl. rewrite Hrows, !lookup_fmap.
      destruct (fetched_snapshot_shape _ _ _ Hfetch) as [[x ->] _]. simpl. eauto.
  - intros Hnz. apply map_eq. intros c. rewrite !lookup_fmap.
    destruct (Bnr.exchangeRates data !! c) as [e|] eqn:Hc; [|done]. simpl.
    by rewrite read_back_nonzero by by apply (Hnz c).
Qed.

(** X9: once [update_exchange_rates] has answered [True], no later read
    fails: after any run of reads, whatever BNR answered to them,
    [get_latest_rates] returns a result. *)
Theorem reads_succeed_after_a_refresh (env0 env : Env) (envs : list Env) (w : World) :
  (update_exchange_rates env0 w).1 = Ok true →
  is_raise (get_latest_rates env (read_all envs (update_exchange_rates env0 w).2)).1
  = false.
Proof.
  intros Hok. by apply get_latest_rates_with_rows, read_all_keeps_rows, update_leaves_rows.
Qed.

(** X10: without supplied rates and for two different codes,
    [convert_currency] reads the rates with [get_latest_rates] and converts
    with them. It raises only "No exchange rates available" (exactly when
    the table is empty and either the fetch fails or the fetched snapshot
    cannot be stored), the [ValueError] of an absent code, or
    [ZeroDivisionError]. *)
Theorem convert_resolves_missing_rates (env : Env) (amount : float)
    (from_currency to_currency : string) (w : World) :
  from_currency ≠ to_currency →
  convert_currency env amount from_currency to_currency None w
  = match get_latest_rates env w with
    | (Ok rates_data, w') =>
        convert_currency env amount from_currency to_currency
          (Some (Latest.rates rates_data)) w'
    | (Raise e, w') => (Raise e, w')
    end
  ∧ (∀ e, (convert_currency env amount from_currency to_currency None w).1 = Raise e →
          e = NO_RATES
          ∨ e = ValueError ("Exchange rate not available for " ++ from_currency
                              ++ " or " ++ to_currency)
          ∨ e = ZeroDivisionError)
  ∧ ((convert_currency env amount from_currency to_currency None w).1 = Raise NO_RATES
     ↔ db w = ∅
       ∧ ((fetch_bnr_rates env w).1 = Raise FETCH_FAILED
          ∨ ∃ data, (fetch_bnr_rates env w).1 = Ok data
                    ∧ ¬ storable (Bnr.exchangeRates data))).
Proof.
  intros Hne.
  assert (convert_currency env amount from_currency to_currency None w
          = match get_latest_rates env w with
            | (Ok rates_data, w') =>
                convert_currency env amount from_currency to_currency
                  (Some (Latest.rates rates_data)) w'
            | (Raise e, w') => (Raise e, w')
            end) as Hunfold.
  { unfold convert_currency. rewrite decide_False by done. unfold bind at 1 2.
    destruct (get_latest_rates env w) as [[l|e] w']; [|done].
    unfold bind, ret. by rewrite decide_False. }
  assert ((get_latest_rates env w).1 = Raise NO_RATES
          ↔ db w = ∅
            ∧ ((fetch_bnr_rates env w).1 = Raise FETCH_FAILED
               ∨ ∃ data, (fetch_bnr_rates env w).1 = Ok data
                         ∧ ¬ storable (Bnr.exchangeRates data))) as Hiff.
  { rewrite fetch_bnr_rates_fails. split.
    - intros (_ & Hempty & [Hfail|(data & Hfetch & Hno)])%get_latest_rates_raises.
      + split; [done|by left].
      + split; [done|]. right. exists data. by rewrite fetch_bnr_rates_returns.
    - intros [Hempty Hwhy]. rewrite get_latest_rates_fallback.
      + rewrite Hempty. by vm_compute.
      + rewrite Hempty. apply no_date_in_empty.
      + destruct Hwhy as [Hfail|(data & Hfetch%fetch_bnr_rates_returns & Hno)]; eauto. }
  split; [done|]. rewrite Hunfold.
  pose proof (get_latest_rates_raises env w) as Hraises.
  destruct (get_latest_rates env w) as [[l|e0] w'] eqn:Hglr; simpl in *.
  - rewrite convert_currency_supplied by done. simpl. split.
    + intros e.
      destruct (Latest.rates l !! from_currency), (Latest.rates l !! to_currency);
        try (intros [= <-]; auto).
      destruct (PrimFloat.eqb _ 0); [intros [= <-]; auto|done].
    + rewrite <- Hiff. split; [|done].
      destruct (Latest.rates l !! from_currency), (Latest.rates l !! to_currency);
        try done.
      by destruct (PrimFloat.eqb _ 0).
  - destruct (Hraises e0 eq_refl) as (-> & _). split.
    + intros e [= <-]. auto.
    + by rewrite <- Hiff.
Qed.

(** ** The handlers *)

(** X11: [POST /convert] refuses a request whose amount is zero or whose
    currency codes are empty with status 400, before any rate is read. *)
Theorem convert_refuses_falsy_fields (env : Env) (timestamp : string)
    (request : CurrencyConvertRequest.t) (w : World) :
  Py.bool_float (CurrencyConvertRequest.amount request) = false
  ∨ CurrencyConvertRequest.fromCurrency request = ""
  ∨ CurrencyConvertRequest.toCurrency request = "" →
  Router.convert env timestamp request w
  = (HTTPException 400
       (Text "Missing required fields: amount, fromCurrency, toCurrency"), w).
Proof.
  unfold Router.convert. intros [Ha|[Hf|Ht]].
  - by rewrite Ha.
  - rewrite Hf. simpl. by rewrite orb_true_r.
  - rewrite Ht. simpl. by rewrite !orb_true_r.
Qed.

(** X12: [POST /convert] between a currency and itself answers with the
    amount unchanged for every nonzero amount and non-empty code, without
    reading the table or invoking the BNR client: it succeeds even when no
    rate is available at all. *)
Theorem convert_handler_same_currency (env : Env) (timestamp : string)
    (amount : float) (X : string) (w : World) :
  Py.bool_float amount = true → X ≠ "" →
  Router.convert env timestamp (CurrencyConvertRequest.mk amount X X) w
  = (Reply (CurrencyConvertResponse.mk amount X X amount timestamp), w).
Proof.
  intros Ha HX. unfold Router.convert. simpl. rewrite Ha.
  destruct X as [|a X]; [done|]. simpl. by rewrite convert_currency_same.
Qed.

(** X13: when the table holds rows dated today, [POST /convert] of a
    nonzero amount between two different non-empty codes answers from
    those rows alone, without a fetch: with both codes among today's rows
    and a nonzero target rate, the converted amount is
    [round(amount * rate_from / rate_to, 2)]; with a code absent from
    today's rows, status 500 with the text of the [ValueError]. *)
Theorem convert_handler_uses_todays_rows (env : Env) (timestamp : string)
    (amount : float) (X Y : string) (w : World) :
  has_date (today env) (db w) →
  Py.bool_float amount = true → X ≠ "" → Y ≠ "" → X ≠ Y →
  (∀ rate_from rate_to,
      db w !! (X, numeric_affinity (today env)) = Some rate_from →
      db w !! (Y, numeric_affinity (today env)) = Some rate_to →
      PrimFloat.eqb rate_to 0 = false →
      Router.convert env timestamp (CurrencyConvertRequest.mk amount X Y) w
      = (Reply (CurrencyConvertResponse.mk amount X Y
                  (Py.round2 (amount * rate_from / rate_to)) timestamp), w))
  ∧ (db w !! (X, numeric_affinity (today env)) = None
     ∨ db w !! (Y, numeric_affinity (today env)) = None →
     Router.convert env timestamp (CurrencyConvertRequest.mk amount X Y) w
     = (HTTPException 500
          (Text ("Exchange rate not available for " ++ X ++ " or " ++ Y)), w)).
Proof.
  intros Hd Ha HX HY Hne.
  assert (Router.convert env timestamp (CurrencyConvertRequest.mk amount X Y) w
          = match convert_currency env amount X Y
                    (Some (dict_of_rows (select_by_date (today env) (db w)))) w with
            | (Ok converted_amount, w') =>
                (Reply (CurrencyConvertResponse.mk amount X Y converted_amount
                          timestamp), w')
            | (Raise e, w') => (HTTPException 500 (str e), w')
            end) as ->.
  { unfold Router.convert. simpl. rewrite Ha.
    destruct X as [|a X]; [done|]. destruct Y as [|b Y]; [done|]. simpl.
    unfold convert_currency at 1. rewrite decide_False by done. unfold bind at 1 2.
    rewrite get_latest_rates_hit by done. unfold bind, ret.
    unfold convert_currency. by rewrite decide_False. }
  rewrite convert_currency_supplied by done. rewrite !dict_of_select_by_date.
  split.
  - intros rf rt -> -> Hz. by rewrite Hz.
  - intros [-> | ->]; [done|].
    by destruct (db w !! (X, numeric_affinity (today env))).
Qed.

(** X14: [GET /rates] fails only with status 500 and the text "No exchange
    rates available", and only when the table is empty and either the
    fetch fails or the fetched snapshot cannot be stored; every body it
    returns names RON as the base currency and holds at least one rate;
    with a row in the table it always returns a body. *)
Theorem get_rates_fails_only_without_any_rate (env : Env) (w : World) :
  (∀ st why, (Router.get_rates env w).1 = HTTPException st why →
             st = 500 ∧ why = Text "No exchange rates available"
             ∧ db w = ∅
             ∧ ((fetch_bnr_rates env w).1 = Raise FETCH_FAILED
                ∨ ∃ data, (fetch_bnr_rates env w).1 = Ok data
                          ∧ ¬ storable (Bnr.exchangeRates data)))
  ∧ (∀ body, (Router.get_rates env w).1 = Reply body →
             CurrencyRates.baseCurrency body = "RON"
             ∧ CurrencyRates.rates body ≠ ∅)
  ∧ (has_rows (db w) → ∃ body, (Router.get_rates env w).1 = Reply body).
Proof.
  unfold Router.get_rates.
  pose proof (get_latest_rates_nonempty env w) as Hne.
  pose proof (get_latest_rates_with_rows env w) as Hrows.
  pose proof (get_latest_rates_raises env w) as Hread.
  destruct (get_latest_rates env w) as [[l|e] w']; simpl in *.
  - split_and!; [done| |eauto]. intros body [= <-]. simpl. auto.
  - destruct (Hread e eq_refl) as (-> & Hempty & Hwhy). split_and!.
    + intros st why [= <- <-]. split_and!; [done..|].
      destruct Hwhy as [Hfail|(data & Hfetch & Hno)].
      * left. by apply fetch_bnr_rates_fails.
      * right. exists data. by rewrite fetch_bnr_rates_returns.
    + done.
    + intros Hhas. by specialize (Hrows Hhas).
Qed.

(** X15: [POST /update-rates] answers by the refresh. When the fetch of
    the refresh fails, or its snapshot cannot be stored, the answer is
    status 500 and the table is untouched. When the snapshot is stored the
    answer is the success message with at least one currency; the read
    that follows is served from the table when a row is dated today (its
    date is then today's, which need not be the date of the document just
    stored), and otherwise invokes the BNR client a second time. *)
Theorem trigger_update_rates_outcome (env_update env_read : Env) (w : World) :
  ((fetch_bnr_rates env_update w).1 = Raise FETCH_FAILED
   ∨ (∃ data, (fetch_bnr_rates env_update w).1 = Ok data
              ∧ ¬ storable (Bnr.exchangeRates data)) →
   Router.trigger_update_rates env_update env_read w
   = (HTTPException 500 (StrOfHTTPException 500 "Failed to update exchange rates"),
      mkWorld (db w) (S (fetch_calls w))))
  ∧ (∀ data,
       (fetch_bnr_rates env_update w).1 = Ok data →
       storable (Bnr.exchangeRates data) →
       ∃ body w2,
         Router.trigger_update_rates env_update env_read w = (Reply body, w2)
         ∧ UpdateRatesResponse.message body = "Exchange rates updated successfully"
         ∧ (1 ≤ UpdateRatesResponse.currencyCount body)%nat
         ∧ (has_date (today env_read) (db (update_exchange_rates env_update w).2) →
            UpdateRatesResponse.date body = TEXT (today env_read)
            ∧ fetch_calls w2 = S (fetch_calls w))
         ∧ (¬ has_date (today env_read) (db (update_exchange_rates env_update w).2) →
            fetch_calls w2 = S (S (fetch_calls w)))).
Proof.
  unfold Router.trigger_update_rates. split.
  - intros Hwhy. rewrite update_exchange_rates_refused; [done|].
    destruct Hwhy as [Hfail%fetch_bnr_rates_fails
                     |(data & Hfetch%fetch_bnr_rates_returns & Hno)]; eauto.
  - intros data Hfetch%fetch_bnr_rates_returns Hst.
    pose proof (update_leaves_rows env_update w) as Hrows.
    destruct (update_exchange_rates_stored env_update w data Hfetch Hst)
      as (tbl & Hupd & _).
    rewrite Hupd in *. simpl in *. specialize (Hrows eq_refl).
    set (w1 := mkWorld _ _) in *.
    pose proof (get_latest_rates_with_rows env_read w1 Hrows) as Hok.
    pose proof (get_latest_rates_nonempty env_read w1) as Hne.
    pose proof (get_latest_rates_hit env_read w1) as Hhit.
    pose proof (fetch_invoked_iff env_read w1) as Hinv. unfold fetch_invoked in Hinv.
    destruct (get_latest_rates env_read w1) as [[l|e] w2]; simpl in *; [|done].
    eexists _, _. split; [done|]. simpl. split_and!; [done| | |].
    + specialize (Hne l eq_refl).
      destruct (size (Latest.rates l)) eqn:Hsz; [|lia].
      by apply map_size_empty_iff in Hsz.
    + intros Hd. specialize (Hhit Hd). injection Hhit as -> ->. by split.
    + intros Hd. apply Hinv in Hd. by rewrite Hd.
Qed.

(** X16: [PUT /preference] with a non-empty code stores it, [GET
    /preference] then returns it, no other key of the table changes, and a
    later [init_database] keeps it; an empty code is refused with status
    400 and the table is untouched; without a stored preference (and after
    [init_database] on an empty table) the preference read is RON. *)
Theorem preference_round_trip (displayCurrency : string) (prefs : Router.Preferences) :
  displayCurrency ≠ "" →
  (∃ prefs',
     Router.set_preference displayCurrency prefs
     = (Reply (displayCurrency, "Preference updated successfully"), prefs')
     ∧ Router.get_preference prefs' = displayCurrency
     ∧ (∀ k, k ≠ "display_currency" → prefs' !! k = prefs !! k)
     ∧ Router.init_preferences prefs' = prefs')
  ∧ Router.set_preference "" prefs
    = (HTTPException 400 (Text "displayCurrency is required"), prefs)
  ∧ (prefs !! "display_currency" = None →
     Router.get_preference prefs = "RON"
     ∧ Router.get_preference (Router.init_preferences prefs) = "RON").
Proof.
  intros Hne. split_and!; [|done|].
  - unfold Router.set_preference. destruct displayCurrency as [|a v]; [done|]. simpl.
    eexists. split; [done|].
    unfold Router.get_preference, Router.init_preferences.
    rewrite lookup_insert_eq. split_and!; [done| |done].
    intros k Hk. by rewrite lookup_insert_ne.
  - intros Hnone. unfold Router.get_preference, Router.init_preferences.
    rewrite Hnone. by rewrite lookup_insert_eq.
Qed.

End Coverage.

(** * Concrete runs

    The service run with the decimal readers and the exact reading of
    numeric literals on the documents and tables defined above. *)

#[local] Existing Instance decimal_builtins.
#[local] Existing Instance exact_literals.

(** The table holds only the snapshot of 2024-01-10, today is 2024-01-15
    and BNR cannot be reached. *)
Lemma stale_cache_after_failed_fetch_witness :
  ∃ v rates,
    get_latest_rates (env_jan15 TransportError) (mkWorld table_jan10 0)
    = (Ok (Latest.mk rates v "cache-fallback"), mkWorld table_jan10 1)
    ∧ is_max_date table_jan10 v
    ∧ snapshot_of table_jan10 v rates
    ∧ v ≠ numeric_affinity "2024-01-15"
    ∧ ((∀ c' v', is_Some (table_jan10 !! (c', v')) → ∃ d', v' = TEXT d') →
       ∃ d, v = TEXT d
            ∧ ∀ c' d', is_Some (table_jan10 !! (c', TEXT d')) →
                       String.leb d' d = true).
Proof.
  apply (stale_cache_after_failed_fetch (env_jan15 TransportError)
           (mkWorld table_jan10 0)).
  - exists ("RON", TEXT "2024-01-10"). by eexists.
  - by vm_compute.
  - by vm_compute.
Defined.

Example stale_cache_scenario :
  (get_latest_rates (env_jan15 TransportError) (mkWorld table_jan10 0)).1
  = Ok (Latest.mk rates_ron_eur (TEXT "2024-01-10") "cache-fallback").
Proof. by vm_compute. Qed.

Example no_rates_scenario :
  (get_latest_rates (env_jan15 TransportError) empty_world).1 = Raise NO_RATES.
Proof. by vm_compute. Qed.

(** C2 as stated fails: the table is empty, BNR answers with a well-formed
    document in which USD is published as nan, the fetch succeeds and
    returns its snapshot, the save of the snapshot is refused, and the
    read raises "No exchange rates available". *)
Lemma nan_snapshot_on_an_empty_table :
  db empty_world = ∅
  ∧ fetch_bnr_rates (env_jan15 (Response 200 (Some (data_set cube_nan)))) empty_world
    = (Ok data_nan, mkWorld ∅ 1)
  ∧ save_rates_to_database (Bnr.exchangeRates data_nan) (Bnr.date data_nan)
      (mkWorld ∅ 1)
    = (Raise IntegrityError, mkWorld ∅ 1)
  ∧ get_latest_rates (env_jan15 (Response 200 (Some (data_set cube_nan)))) empty_world
    = (Raise NO_RATES, mkWorld ∅ 1).
Proof. by vm_compute. Qed.

(** With rows in the table the same answer of BNR leaves the table as it
    was and the read falls back on the latest rows. *)
Example nan_snapshot_on_a_stale_table :
  get_latest_rates (env_jan15 (Response 200 (Some (data_set cube_nan))))
    (mkWorld table_jan10 0)
  = (Ok (Latest.mk rates_ron_eur (TEXT "2024-01-10") "cache-fallback"),
     mkWorld table_jan10 1).
Proof. by vm_compute. Qed.

Lemma cache_hit_skips_the_fetch_witness :
  ∃ rates,
    get_latest_rates (env_jan15 TransportError) (mkWorld table_jan15 0)
    = (Ok (Latest.mk rates (TEXT "2024-01-15") "cache"), mkWorld table_jan15 0)
    ∧ snapshot_of table_jan15 (numeric_affinity "2024-01-15") rates.
Proof.
  apply (cache_hit_skips_the_fetch (env_jan15 TransportError)
           (mkWorld table_jan15 0)).
  exists "RON". by eexists.
Defined.

Lemma live_path_keeps_the_document_date_witness :
  ∃ r w',
    get_latest_rates (env_jan15 (Response 200 (Some (data_set cube_jan10)))) empty_world
    = (r, w')
    ∧ fetch_calls w' = 1%nat
    ∧ (storable (Bnr.exchangeRates data_jan10) →
       r = Ok (Latest.mk (Entry.rate <$> Bnr.exchangeRates data_jan10)
                 (TEXT "2024-01-10") "bnr")
       ∧ (∀ c entry, Bnr.exchangeRates data_jan10 !! c = Some entry →
                     db w' !! (c, numeric_affinity "2024-01-10")
                     = Some (read_back (Entry.rate entry)))
       ∧ (∀ c v, v ≠ numeric_affinity "2024-01-10" →
                 db w' !! (c, v) = (∅ : Table) !! (c, v)))
    ∧ (¬ storable (Bnr.exchangeRates data_jan10) →
       db w' = ∅ ∧ ∀ l, r = Ok l → Latest.source l = "cache-fallback")
    ∧ (before "2024-01-10" "2024-01-15" →
       (∀ env', today env' = "2024-01-15" → fetch_invoked env' w')
       ∧ ∀ envs, Forall (stale_answer "2024-01-15") envs →
                 fetch_calls (read_all envs w') = (fetch_calls w' + length envs)%nat
                 ∧ ¬ has_date "2024-01-15" (db (read_all envs w'))).
Proof.
  apply (live_path_keeps_the_document_date
           (env_jan15 (Response 200 (Some (data_set cube_jan10)))) empty_world
           200 (data_set cube_jan10) cube_jan10 "2024-01-10" data_jan10).
  - intros [c [v Hv]]. simpl in Hv. by rewrite lookup_empty in Hv.
  - done.
  - by vm_compute.
  - by vm_compute.
  - by vm_compute.
Defined.

(** The document of 2024-01-10 can be stored, and 2024-01-10 is before
    2024-01-15. *)
Example live_path_scenario :
  storable (Bnr.exchangeRates data_jan10)
  ∧ before "2024-01-10" "2024-01-15"
  ∧ (get_latest_rates (env_jan15 (Response 200 (Some (data_set cube_jan10))))
       empty_world).1
    = Ok (Latest.mk (Entry.rate <$> Bnr.exchangeRates data_jan10)
            (TEXT "2024-01-10") "bnr").
Proof. split_and!; [apply (bool_decide_unpack _)|..]; by vm_compute. Qed.

(** After the live fetch of the document of 2024-01-10 on 2024-01-15, a
    second read of that day fetches again. *)
Example second_read_fetches_again :
  fetch_calls
    (read_all [env_jan15 (Response 200 (Some (data_set cube_jan10)));
               env_jan15 (Response 200 (Some (data_set cube_jan10)))]
       empty_world) = 2%nat.
Proof. by vm_compute. Qed.

(** A Cube that lacks only its date attribute is accepted: the snapshot
    takes the current date. *)
Example undated_cube_takes_the_current_date :
  Bnr.date <$> (match fetch_bnr_rates_try "2024-01-15"
                        (Response 200 (Some (data_set cube_undated))) with
                | Ok data => Some data
                | Raise _ => None
                end) = Some "2024-01-15".
Proof. by vm_compute. Qed.


(** C5 as stated fails: the entry EUR with the published value 0.0 (and no
    multiplier) is in the document, the fetch succeeds, and the snapshot
    has no rate for EUR at all. *)
Lemma zero_valued_entry_is_dropped :
  ∃ data,
    fetch_bnr_rates_try "2024-01-15" (Response 200 (Some (data_set cube_zero)))
    = Ok data
    ∧ find CUBE (data_set cube_zero) = Some cube_zero
    ∧ findall RATE cube_zero = [zero_entry]
    ∧ publishes zero_entry "EUR" 0 1
    ∧ Bnr.exchangeRates data !! "EUR" = None.
Proof.
  eexists. split_and!; [by vm_compute..|]. by vm_compute.
Qed.

(** HUF is published as 1.2725 for 100 units. *)
Lemma snapshot_rates_are_normalized_witness :
  (attrib huf_entry !! "multiplier" = None → 100 = 1)
  ∧ ∃ fM, Py.float_of_int 100 = Ok fM
          ∧ Entry.rate <$> Bnr.exchangeRates data_jan10 !! "HUF"
            = Some (1.2725 / fM)%float.
Proof.
  apply (proj1 (snapshot_rates_are_normalized "2024-01-15" 200
                  (data_set cube_jan10) cube_jan10 data_jan10
                  ltac:(by vm_compute) ltac:(by vm_compute))
           [eur_entry] huf_entry []).
  - by vm_compute.
  - by vm_compute.
  - done.
  - by vm_compute.
  - intros e' He'. by apply not_elem_of_nil in He'.
Defined.

(** C9 as stated fails: the entry XXX publishes 1e-323 for 100 units; the
    value is not zero, its hundredth is 0.0 in binary64, the fetch
    succeeds with the rate 0.0 for XXX, and converting to XXX with the
    fetched rates divides by zero. *)
Lemma underflow_leaves_a_zero_rate :
  fetch_bnr_rates_try "2024-01-15" (Response 200 (Some (data_set cube_tiny)))
  = Ok data_tiny
  ∧ Entry.rate <$> Bnr.exchangeRates data_tiny !! "XXX" = Some 0%float
  ∧ convert_currency (env_jan15 TransportError) 1 "RON" "XXX"
      (Some (Entry.rate <$> Bnr.exchangeRates data_tiny)) empty_world
    = (Raise ZeroDivisionError, empty_world).
Proof. by vm_compute. Qed.

Lemma snapshot_rates_have_nonzero_sources_witness :
  ("HUF" = "RON" ∧ (1.2725 / 100)%float = 1%float)
  ∨ ∃ e V M fM,
      e ∈ findall RATE cube_jan10 ∧ publishes e "HUF" V M
      ∧ Py.bool_float V = true
      ∧ Py.float_of_int M = Ok fM ∧ PrimFloat.eqb fM 0 = false
      ∧ (1.2725 / 100)%float = (V / fM)%float.
Proof.
  apply (proj1 (snapshot_rates_have_nonzero_sources "2024-01-15" 200
                  (data_set cube_jan10) cube_jan10 data_jan10
                  ltac:(by vm_compute) ltac:(by vm_compute))
           "HUF" (Entry.mk (1.2725 / 100) "2024-01-10")).
  by vm_compute.
Defined.

(** C4 as stated fails: both codes are in the map, the rate of the target
    is 0.0, and the call neither returns a rounded amount nor raises the
    [ValueError]: the division raises. *)
Lemma convert_zero_rate_raises :
  "RON" ≠ "EUR"
  ∧ rates_zero_eur !! "RON" = Some 1%float
  ∧ rates_zero_eur !! "EUR" = Some 0%float
  ∧ convert_currency (env_jan15 TransportError) 100 "RON" "EUR"
      (Some rates_zero_eur) empty_world
    = (Raise ZeroDivisionError, empty_world).
Proof. by vm_compute. Qed.

(** The rates fetched from the document of 2024-01-10 (EUR published as
    5.0), used to convert. *)
Example end_to_end_scenario :
  fetch_bnr_rates_try "2024-01-15" (Response 200 (Some (data_set cube_jan10)))
  = Ok data_jan10
  ∧ convert_currency (env_jan15 TransportError) 100 "RON" "EUR"
      (Some (Entry.rate <$> Bnr.exchangeRates data_jan10)) empty_world
    = (Ok 20%float, empty_world)
  ∧ convert_currency (env_jan15 TransportError) 20 "EUR" "RON"
      (Some (Entry.rate <$> Bnr.exchangeRates data_jan10)) empty_world
    = (Ok 100%float, empty_world).
Proof. by vm_compute. Qed.

Lemma convert_through_the_base_witness :
  convert_currency (env_jan15 TransportError) 20 "EUR" "RON"
    (Some rates_ron_eur) empty_world
  = (Ok (Py.round2 (20 * 5 / 1)), empty_world).
Proof.
  apply (convert_through_the_base (env_jan15 TransportError) 20 "EUR" "RON"
           rates_ron_eur empty_world); done.
Defined.

(** C6 as stated fails: 0.02 RON are 0.0 EUR at 5 RON the EUR, and 0.0 EUR
    are 0.0 RON; the round trip is 0.02 away from the amount. *)
Lemma round_trip_loses_two_cents :
  convert_currency (env_jan15 TransportError) 0.02 "RON" "EUR"
    (Some rates_ron_eur) empty_world = (Ok 0%float, empty_world)
  ∧ convert_currency (env_jan15 TransportError) 0 "EUR" "RON"
      (Some rates_ron_eur) empty_world = (Ok 0%float, empty_world)
  ∧ PrimFloat.leb (abs (0 - 0.02)) 0.01 = false.
Proof. by vm_compute. Qed.

(** 100 RON to EUR and back on floats; 0.02 RON to EUR and back on exact
    fractions, where the bound is 0.03. *)
Lemma round_trip_rounds_twice_witness :
  (∃ there back,
     convert_currency (env_jan15 TransportError) 100 "RON" "EUR"
       (Some rates_ron_eur) empty_world = (Ok there, empty_world)
     ∧ convert_currency (env_jan15 TransportError) there "EUR" "RON"
         (Some rates_ron_eur) empty_world = (Ok back, empty_world)
     ∧ ("RON" = "EUR" → back = 100%float)
     ∧ ("RON" ≠ "EUR" → there = Py.round2 (100 * 1 / 5)
                        ∧ back = Py.round2 (there * 5 / 1)))
  ∧ (∃ there back : Q,
       pivot (1 # 50)%Q 1%Q 5%Q = Ok there ∧ pivot there 5%Q 1%Q = Ok back
       ∧ (Qabs (back - (1 # 50)) <= (1 # 200) * (1 + 5 / 1))%Q
       ∧ ((5 <= 1)%Q → (Qabs (back - (1 # 50)) <= 1 # 100)%Q)).
Proof.
  destruct (round_trip_rounds_twice (env_jan15 TransportError) 100 "RON" "EUR"
              rates_ron_eur 1 5 empty_world) as [Hfloat Hexact];
    [by vm_compute..|].
  split; [exact Hfloat|].
  exact (Hexact (1 # 50)%Q 1%Q 5%Q eq_refl eq_refl).
Defined.

(** ** More concrete runs *)

(** The document of 2024-01-10 is fetched: RON is there and every entry
    is dated 2024-01-10. *)
Lemma fetched_snapshot_is_dated_and_has_ron_witness :
  is_Some (Bnr.exchangeRates data_jan10 !! "RON")
  ∧ ∀ c x, Bnr.exchangeRates data_jan10 !! c = Some x →
           Entry.date x = "2024-01-10" ∧ c ≠ "".
Proof.
  apply (fetched_snapshot_is_dated_and_has_ron
           (env_jan15 (Response 200 (Some (data_set cube_jan10)))) empty_world
           data_jan10).
  by vm_compute.
Defined.

(** The table of 2024-01-10 read on 2024-01-15 while BNR is down. *)
Lemma every_read_returns_rates_witness :
  rates_ron_eur ≠ ∅
  ∧ (("cache-fallback" = "cache" ∧ TEXT "2024-01-10" = TEXT "2024-01-15"
      ∧ snapshot_of table_jan10 (numeric_affinity "2024-01-15") rates_ron_eur)
     ∨ ("cache-fallback" = "bnr" ∧ is_Some (rates_ron_eur !! "RON"))
     ∨ ("cache-fallback" = "cache-fallback"
        ∧ snapshot_of table_jan10 (TEXT "2024-01-10") rates_ron_eur)).
Proof.
  apply (every_read_returns_rates (env_jan15 TransportError) (mkWorld table_jan10 0)
           (Latest.mk rates_ron_eur (TEXT "2024-01-10") "cache-fallback")).
  by vm_compute.
Defined.

(** The document of 2024-01-10 fetched on 2024-01-10, then a second read
    of that day while BNR is down. *)
Lemma live_rates_are_cached_for_the_day_witness :
  (get_latest_rates (env_jan10 (Response 200 (Some (data_set cube_jan10))))
     empty_world).1
  = Ok (Latest.mk (Entry.rate <$> Bnr.exchangeRates data_jan10)
          (TEXT "2024-01-10") "bnr")
  ∧ get_latest_rates (env_jan10 TransportError)
      (get_latest_rates (env_jan10 (Response 200 (Some (data_set cube_jan10))))
         empty_world).2
    = (Ok (Latest.mk (read_back <$> (Entry.rate <$> Bnr.exchangeRates data_jan10))
             (TEXT "2024-01-10") "cache"),
       (get_latest_rates (env_jan10 (Response 200 (Some (data_set cube_jan10))))
          empty_world).2)
  ∧ ((∀ c e, Bnr.exchangeRates data_jan10 !! c = Some e →
             PrimFloat.eqb (Entry.rate e) 0 = false) →
     read_back <$> (Entry.rate <$> Bnr.exchangeRates data_jan10)
     = Entry.rate <$> Bnr.exchangeRates data_jan10).
Proof.
  apply (live_rates_are_cached_for_the_day
           (env_jan10 (Response 200 (Some (data_set cube_jan10))))
           (env_jan10 TransportError) empty_world data_jan10).
  - intros [c [v Hv]]. simpl in Hv. by rewrite lookup_empty in Hv.
  - by vm_compute.
  - apply (bool_decide_unpack _). by vm_compute.
  - done.
  - done.
Defined.

(** A document of today in which XXX is published as -1e-323 for 100
    units: the first read returns the rate -0.0, the second read of the
    day returns it as 0.0. *)
Example negative_zero_is_read_back_as_zero :
  Latest.rates <$>
    (match (get_latest_rates
              (env_jan15 (Response 200 (Some (data_set cube_negative_tiny))))
              empty_world).1 with
     | Ok l => Some l
     | Raise _ => None
     end)
  = Some (<["XXX" := (-0)%float]> (<["RON" := 1%float]> ∅))
  ∧ Latest.rates <$>
      (match (get_latest_rates (env_jan15 TransportError)
                (get_latest_rates
                   (env_jan15 (Response 200 (Some (data_set cube_negative_tiny))))
                   empty_world).2).1 with
       | Ok l => Some l
       | Raise _ => None
       end)
    = Some (<["XXX" := 0%float]> (<["RON" := 1%float]> ∅)).
Proof. by vm_compute. Qed.

(** The texts 2025 and 2025.0 are one date of the column, a number, and a
    number is below every text: after the document dated 2025 was stored
    beside the rows of 2024-01-10, its rows are read back under 2025.0,
    and the fallback serves the rows of 2024-01-10. *)
Example numeric_dates :
  numeric_affinity "2025" = year_2025
  ∧ numeric_affinity "2025.0" = year_2025
  ∧ (get_latest_rates (env_jan15 (Response 200 (Some (data_set cube_2025))))
       (mkWorld table_jan10 0)).1
    = Ok (Latest.mk rates_ron_eur (TEXT "2025") "bnr")
  ∧ (get_cached_rates "2025.0"
       (get_latest_rates (env_jan15 (Response 200 (Some (data_set cube_2025))))
          (mkWorld table_jan10 0)).2).1
    = Ok (Some rates_ron_eur)
  ∧ (get_latest_rates (env_jan15 TransportError)
       (get_latest_rates (env_jan15 (Response 200 (Some (data_set cube_2025))))
          (mkWorld table_jan10 0)).2).1
    = Ok (Latest.mk rates_ron_eur (TEXT "2024-01-10") "cache-fallback").
Proof. by vm_compute. Qed.

(** A refresh on 2024-01-15, two reads, then a read while BNR is down. *)
Lemma reads_succeed_after_a_refresh_witness :
  is_raise
    (get_latest_rates (env_jan15 TransportError)
       (read_all [env_jan15 TransportError; env_jan15 (Response 503 None)]
          (update_exchange_rates
             (env_jan15 (Response 200 (Some (data_set cube_jan10))))
             empty_world).2)).1
  = false.
Proof.
  apply (reads_succeed_after_a_refresh
           (env_jan15 (Response 200 (Some (data_set cube_jan10))))
           (env_jan15 TransportError)
           [env_jan15 TransportError; env_jan15 (Response 503 None)] empty_world).
  by vm_compute.
Defined.

(** No rates supplied, an empty table and BNR down. *)
Lemma convert_resolves_missing_rates_witness :
  (convert_currency (env_jan15 TransportError) 100 "RON" "EUR" None empty_world).1
  = Raise NO_RATES
  ↔ db empty_world = ∅
    ∧ ((fetch_bnr_rates (env_jan15 TransportError) empty_world).1 = Raise FETCH_FAILED
       ∨ ∃ data, (fetch_bnr_rates (env_jan15 TransportError) empty_world).1 = Ok data
                 ∧ ¬ storable (Bnr.exchangeRates data)).
Proof.
  apply (convert_resolves_missing_rates (env_jan15 TransportError) 100 "RON" "EUR"
           empty_world).
  done.
Defined.

(** An amount of zero. *)
Lemma convert_refuses_falsy_fields_witness :
  Router.convert (env_jan15 TransportError) "2024-01-15T10:00:00"
    (CurrencyConvertRequest.mk 0 "RON" "EUR") (mkWorld table_jan15 0)
  = (HTTPException 400
       (Text "Missing required fields: amount, fromCurrency, toCurrency"),
     mkWorld table_jan15 0).
Proof.
  apply (convert_refuses_falsy_fields (env_jan15 TransportError) "2024-01-15T10:00:00"
           (CurrencyConvertRequest.mk 0 "RON" "EUR") (mkWorld table_jan15 0)).
  left. by vm_compute.
Defined.

(** EUR to EUR on an empty table while BNR is down. *)
Lemma convert_handler_same_currency_witness :
  Router.convert (env_jan15 TransportError) "2024-01-15T10:00:00"
    (CurrencyConvertRequest.mk 5 "EUR" "EUR") empty_world
  = (Reply (CurrencyConvertResponse.mk 5 "EUR" "EUR" 5 "2024-01-15T10:00:00"),
     empty_world).
Proof.
  apply (convert_handler_same_currency (env_jan15 TransportError)
           "2024-01-15T10:00:00" 5 "EUR" empty_world); by vm_compute.
Defined.

(** 100 RON to EUR from the rows of 2024-01-15. *)
Lemma convert_handler_uses_todays_rows_witness :
  Router.convert (env_jan15 TransportError) "2024-01-15T10:00:00"
    (CurrencyConvertRequest.mk 100 "RON" "EUR") (mkWorld table_jan15 0)
  = (Reply (CurrencyConvertResponse.mk 100 "RON" "EUR" (Py.round2 (100 * 1 / 5))
              "2024-01-15T10:00:00"),
     mkWorld table_jan15 0).
Proof.
  apply (convert_handler_uses_todays_rows (env_jan15 TransportError)
           "2024-01-15T10:00:00" 100 "RON" "EUR" (mkWorld table_jan15 0)).
  - exists "RON". by eexists.
  - by vm_compute.
  - done.
  - done.
  - done.
  - by vm_compute.
  - by vm_compute.
  - by vm_compute.
Defined.

(** The preference EUR on an empty table. *)
Lemma preference_round_trip_witness :
  (∃ prefs',
     Router.set_preference "EUR" ∅
     = (Reply ("EUR", "Preference updated successfully"), prefs')
     ∧ Router.get_preference prefs' = "EUR"
     ∧ (∀ k, k ≠ "display_currency" → prefs' !! k = (∅ : Router.Preferences) !! k)
     ∧ Router.init_preferences prefs' = prefs')
  ∧ Router.set_preference "" ∅
    = (HTTPException 400 (Text "displayCurrency is required"), ∅)
  ∧ ((∅ : Router.Preferences) !! "display_currency" = None →
     Router.get_preference ∅ = "RON"
     ∧ Router.get_preference (Router.init_preferences ∅) = "RON").
Proof.
  apply (preference_round_trip "EUR" ∅). done.
Defined.

(** A manual update on 2024-01-15 with the document of 2024-01-10: the
    handler asks BNR twice. *)
Example manual_update_fetches_twice :
  fetch_calls
    (Router.trigger_update_rates
       (env_jan15 (Response 200 (Some (data_set cube_jan10))))
       (env_jan15 (Response 200 (Some (data_set cube_jan10)))) empty_world).2
  = 2%nat.
Proof. by vm_compute. Qed.
